(** * HAUS voice agent worker: a shallow embedding of [agent.py]

    The development follows [packages/backend/agent-worker/agent.py]:
    the Cortex memory client ([ConvexClient]), the memory mediator
    ([HausAgent.on_user_turn_completed]), the three tools of the agent and
    the identity resolution of the session entry point ([haus_agent]).

    Python values are embedded as the inductive [value]; code that awaits
    the network, raises or mutates the turn context lives in the monad [M],
    which threads the list of requests sent so far and the turn context and
    returns either a value or a raised exception. *)

From Stdlib Require Import ZArith List String Ascii Bool Lia DecimalString Floats.
Import ListNotations.

Open Scope string_scope.
Open Scope Z_scope.

(** ** Python strings *)

Module PyStr.

(** [str(n)] for a Python [int]. *)
Definition of_Z (z : Z) : string :=
  NilZero.string_of_int (Z.to_int z).

(** [sep.join(parts)]. *)
Definition join (sep : string) (parts : list string) : string :=
  String.concat sep parts.

(** Grouping of a digit sequence given least significant digit first:
    a comma after every third digit that is followed by another one. *)
Fixpoint group_rev (ds : list ascii) : list ascii :=
  match ds with
  | a :: b :: c :: ((_ :: _) as rest) =>
      a :: b :: c :: ","%char :: group_rev rest
  | _ => ds
  end.

(** [format(n, ',')] for a Python [int]: the sign, then the decimal digits
    in groups of three. *)
Definition format_comma (z : Z) : string :=
  let digits := list_ascii_of_string (of_Z (Z.abs z)) in
  let grouped := string_of_list_ascii (rev (group_rev (rev digits))) in
  if z <? 0 then String "-"%char grouped else grouped.

(** [s.split(sep)] for a non-empty [sep]: a left-to-right scan for
    non-overlapping occurrences.  [skip] counts the characters of a matched
    separator still to be dropped, [cur] is the piece being collected. *)
Fixpoint split_go (sep s : string) (skip : nat) (cur : string)
  : list string :=
  match s with
  | EmptyString => [cur]
  | String c s' =>
      match skip with
      | S k => split_go sep s' k cur
      | O =>
          if prefix sep s
          then cur :: split_go sep s' (Nat.pred (String.length sep)) EmptyString
          else split_go sep s' O (cur ++ String c EmptyString)
      end
  end.

Definition split (s sep : string) : list string :=
  split_go sep s O EmptyString.

(** [needle in hay]. *)
Fixpoint contains (needle hay : string) : bool :=
  prefix needle hay
  || match hay with
     | EmptyString => false
     | String _ hay' => contains needle hay'
     end.

(** [c in chars]. *)
Fixpoint mem (c : ascii) (chars : string) : bool :=
  match chars with
  | EmptyString => false
  | String c' chars' => Ascii.eqb c c' || mem c chars'
  end.

(** [s.rstrip(chars)]: the trailing characters that are in [chars] go. *)
Fixpoint rstrip (s chars : string) : string :=
  match s with
  | EmptyString => EmptyString
  | String c s' =>
      match rstrip s' chars with
      | EmptyString => if mem c chars then EmptyString else String c EmptyString
      | String _ _ as kept => String c kept
      end
  end.

End PyStr.

(** ** Python values

    What [response.json()] and [json.loads] produce, and what the tools build
    with dict and list displays.  A dict is an association list in insertion
    order with distinct keys. *)

#[warnings="-register-all"]
Inductive value : Type :=
| VNone
| VBool (b : bool)
| VInt (z : Z)
| VFloat (f : float)
| VStr (s : string)
| VList (items : list value)
| VDict (entries : list (string * value)).

(** Truth value testing, as [if v:], [v or w] and [not v] apply it. *)
Definition truthy (v : value) : bool :=
  match v with
  | VNone => false
  | VBool b => b
  | VInt z => negb (z =? 0)
  | VFloat f => negb (PrimFloat.eqb f PrimFloat.zero)
  | VStr s => negb (String.eqb s EmptyString)
  | VList l => match l with [] => false | _ => true end
  | VDict d => match d with [] => false | _ => true end
  end.

(** [v or w]. *)
Definition py_or (v w : value) : value :=
  if truthy v then v else w.

(** Lookup in the entries of a dict. *)
Fixpoint dict_lookup (k : string) (d : list (string * value)) : option value :=
  match d with
  | [] => None
  | (k', v) :: d' => if String.eqb k k' then Some v else dict_lookup k d'
  end.

Definition of_option_Z (o : option Z) : value :=
  match o with Some z => VInt z | None => VNone end.

Definition of_option_str (o : option string) : value :=
  match o with Some s => VStr s | None => VNone end.

(** ** Exceptions *)

Inductive exn : Type :=
| TransportError             (* httpx.TransportError and its subclasses *)
| HTTPStatusError (status : Z)
| JSONDecodeError
| AttributeError
| KeyError
| TypeError
| ValueError
| IndexError
| CancelledError.            (* asyncio.CancelledError: a BaseException *)

(** [isinstance(e, Exception)]: what [except Exception] catches. *)
Definition is_Exception (e : exn) : bool :=
  match e with
  | CancelledError => false
  | _ => true
  end.

Inductive outcome (A : Type) : Type :=
| Returns (a : A)
| Raises (e : exn).
Arguments Returns {A} a.
Arguments Raises {A} e.

(** ** The world of a call *)

Record ChatMessage : Type := mkChatMessage {
  role : string;
  text_content : option string
}.

Record Request : Type := mkRequest {
  url : string;
  json : value
}.

Record Response : Type := mkResponse {
  status_code : Z;
  (** [None]: the body is not a JSON document, [response.json()] raises. *)
  body : option value
}.

(** What awaiting [http_client.post] comes to. *)
Inductive Reply : Type :=
| PostRaises (e : exn)
| PostReturns (r : Response).

Record State : Type := mkState {
  sent : list Request;          (* the requests posted so far, oldest first *)
  turn_ctx : list ChatMessage   (* the chat context the mediator appends to *)
}.

Definition M (A : Type) : Type := State -> outcome A * State.

Definition ret {A} (a : A) : M A := fun st => (Returns a, st).

Definition raise {A} (e : exn) : M A := fun st => (Raises e, st).

Definition bind {A B} (m : M A) (k : A -> M B) : M B :=
  fun st =>
    match m st with
    | (Returns a, st') => k a st'
    | (Raises e, st') => (Raises e, st')
    end.

Notation "x <- m ;; k" := (bind m (fun x => k))
  (at level 61, m at next level, right associativity).
Notation "m ;;; k" := (bind m (fun _ => k))
  (at level 61, right associativity).

(** [try: body  except Exception as e: handler]. *)
Definition try_except {A} (body : M A) (handler : exn -> M A) : M A :=
  fun st =>
    match body st with
    | (Raises e, st') =>
        if is_Exception e then handler e st' else (Raises e, st')
    | r => r
    end.

(** A list comprehension, or the body of a [for] loop that collects. *)
Fixpoint mapM {A B} (f : A -> M B) (l : list A) : M (list B) :=
  match l with
  | [] => ret []
  | x :: l' => y <- f x ;; ys <- mapM f l' ;; ret (y :: ys)
  end.

(** A [for] loop run for its effects. *)
Fixpoint forM_ {A} (f : A -> M unit) (l : list A) : M unit :=
  match l with
  | [] => ret tt
  | x :: l' => f x ;;; forM_ f l'
  end.

(** [v[k]] with a string [k]. *)
Definition subscript (v : value) (k : string) : M value :=
  match v with
  | VDict d =>
      match dict_lookup k d with
      | Some x => ret x
      | None => raise KeyError
      end
  | _ => raise TypeError
  end.

(** [v.get(k, default)]. *)
Definition get (v : value) (k : string) (default : value) : M value :=
  match v with
  | VDict d =>
      match dict_lookup k d with
      | Some x => ret x
      | None => ret default
      end
  | _ => raise AttributeError
  end.

(** [v[:n]]. *)
Definition slice_to (n : nat) (v : value) : M value :=
  match v with
  | VList l => ret (VList (firstn n l))
  | VStr s => ret (VStr (substring 0 n s))
  | _ => raise TypeError
  end.

(** The items a [for x in v] visits. *)
Definition iter (v : value) : M (list value) :=
  match v with
  | VList l => ret l
  | VStr s => ret (map (fun c => VStr (String c EmptyString))
                       (list_ascii_of_string s))
  | VDict d => ret (map (fun kv => VStr (fst kv)) d)
  | _ => raise TypeError
  end.

(** [turn_ctx.add_message(role=..., content=...)]. *)
Definition add_message (r content : string) : M unit :=
  fun st =>
    (Returns tt,
     mkState (sent st) (turn_ctx st ++ [mkChatMessage r (Some content)])).

(** ** The environment of the worker

    The memory service, and the functions of Python's library the code calls
    whose results the development does not compute, are parameters. *)

Section Worker.

(** The memory service: the reply to a request, given the requests that
    came before it. *)
Variable backend : list Request -> Request -> Reply.

(** [json.dumps]. *)
Variable json_dumps : value -> string.

(** [json.loads]. *)
Variable json_loads : string -> outcome value.

(** [format(f, spec)] for a Python [float]; [str(f)] is the empty [spec]. *)
Variable format_float : string -> float -> string.

(** [repr] of a list or a dict. *)
Variable repr_container : value -> string.

(** [str(v)], which an f-string field without a format spec applies. *)
Definition str (v : value) : string :=
  match v with
  | VNone => "None"
  | VBool true => "True"
  | VBool false => "False"
  | VInt z => PyStr.of_Z z
  | VFloat f => format_float EmptyString f
  | VStr s => s
  | VList _ | VDict _ => repr_container v
  end.

(** [format(v, ',')], the f-string field [{v:,}]. *)
Definition format_comma (v : value) : M string :=
  match v with
  | VInt z => ret (PyStr.format_comma z)
  | VBool b => ret (PyStr.format_comma (if b then 1 else 0))
  | VFloat f => ret (format_float "," f)
  | VStr _ => raise ValueError
  | _ => raise TypeError
  end.

(** [sep.join(v)]: every item has to be a [str]. *)
Definition join_value (sep : string) (v : value) : M string :=
  items <- iter v ;;
  parts <- mapM (fun x => match x with
                          | VStr s => ret s
                          | _ => raise TypeError
                          end) items ;;
  ret (PyStr.join sep parts).

(** [await self.http_client.post(url, json=payload)]. *)
Definition post (u : string) (payload : value) : M Response :=
  fun st =>
    let rq := mkRequest u payload in
    let st' := mkState (sent st ++ [rq]) (turn_ctx st) in
    match backend (sent st) rq with
    | PostRaises e => (Raises e, st')
    | PostReturns r => (Returns r, st')
    end.

(** [response.raise_for_status()]: raises unless the status is 2xx. *)
Definition raise_for_status (r : Response) : M unit :=
  if (200 <=? status_code r) && (status_code r <? 300)
  then ret tt
  else raise (HTTPStatusError (status_code r)).

(** [response.json()]. *)
Definition response_json (r : Response) : M value :=
  match body r with
  | Some v => ret v
  | None => raise JSONDecodeError
  end.

(** *** ConvexClient *)

Record ConvexClient : Type := mkConvexClient {
  base_url : string
}.

(** The handlers print a line and return; the line is not modelled. *)

Definition ensure_memory_space (self : ConvexClient) (user_id : string)
  : M value :=
  try_except
    (response <- post (base_url self ++ "/api/cortex/ensure-memory-space")
                      (VDict [("userId", VStr user_id)]) ;;
     raise_for_status response ;;;
     data <- response_json response ;;
     get data "memorySpaceId" VNone)
    (fun _ => ret VNone).

Definition empty_recall : value :=
  VDict [("memories", VList []);
         ("facts", VList []);
         ("propertyInteractions", VList []);
         ("suburbPreferences", VList [])].

Definition recall_context (self : ConvexClient) (user_id query : string)
           (limit : Z) : M value :=
  try_except
    (response <- post (base_url self ++ "/api/cortex/recall")
                      (VDict [("userId", VStr user_id);
                              ("query", VStr query);
                              ("limit", VInt limit)]) ;;
     raise_for_status response ;;;
     response_json response)
    (fun _ => ret empty_recall).

Definition remember_conversation (self : ConvexClient)
           (user_id user_query agent_response : string)
           (property_id property_context : value) : M value :=
  try_except
    (response <- post (base_url self ++ "/api/cortex/remember")
                      (VDict [("userId", VStr user_id);
                              ("userQuery", VStr user_query);
                              ("agentResponse", VStr agent_response);
                              ("propertyId", property_id);
                              ("propertyContext", property_context)]) ;;
     raise_for_status response ;;;
     data <- response_json response ;;
     get data "success" (VBool false))
    (fun _ => ret (VBool false)).

Definition store_preference (self : ConvexClient)
           (user_id category preference : string) (confidence : Z)
           (metadata : value) : M value :=
  try_except
    (response <- post (base_url self ++ "/api/cortex/store-preference")
                      (VDict [("userId", VStr user_id);
                              ("category", VStr category);
                              ("preference", VStr preference);
                              ("confidence", VInt confidence);
                              ("metadata", metadata)]) ;;
     raise_for_status response ;;;
     data <- response_json response ;;
     get data "success" (VBool false))
    (fun _ => ret (VBool false)).

(** *** HausAgent *)

Record HausAgent : Type := mkHausAgent {
  convex : ConvexClient;
  user_id : string
}.

(** The three injection steps of [on_user_turn_completed], one per [if]. *)

Definition inject_suburb_preferences (context : value) : M unit :=
  present <- get context "suburbPreferences" VNone ;;
  if truthy present then
    all <- subscript context "suburbPreferences" ;;
    prefs <- slice_to 5 all ;;
    items <- iter prefs ;;
    parts <- mapM (fun p =>
                     name <- subscript p "suburbName" ;;
                     score <- subscript p "preferenceScore" ;;
                     ret (str name ++ " (score: " ++ str score ++ ")"))
                  items ;;
    add_message "assistant"
                ("User's suburb preferences: " ++ PyStr.join ", " parts)
  else ret tt.

Definition inject_facts (context : value) : M unit :=
  present <- get context "facts" VNone ;;
  if truthy present then
    all <- subscript context "facts" ;;
    facts <- slice_to 5 all ;;
    items <- iter facts ;;
    forM_ (fun fact =>
             text <- subscript fact "fact" ;;
             confidence <- subscript fact "confidence" ;;
             add_message "assistant"
                         ("Remembered: " ++ str text ++ " (confidence: "
                          ++ str confidence ++ "%)"))
          items
  else ret tt.

Definition inject_property_interactions (context : value) : M unit :=
  present <- get context "propertyInteractions" VNone ;;
  if truthy present then
    all <- subscript context "propertyInteractions" ;;
    interactions <- slice_to 3 all ;;
    items <- iter interactions ;;
    forM_ (fun interaction =>
             pid <- subscript interaction "propertyId" ;;
             kind <- subscript interaction "interactionType" ;;
             add_message "assistant"
                         ("User recently viewed: " ++ str pid ++ " ("
                          ++ str kind ++ ")"))
          items
  else ret tt.

(** [new_message.text_content or <empty string>]. *)
Definition text_or_empty (m : ChatMessage) : string :=
  match text_content m with
  | Some (String _ _ as s) => s
  | _ => EmptyString
  end.

Definition on_user_turn_completed (self : HausAgent)
           (new_message : ChatMessage) : M unit :=
  context <- recall_context (convex self) (user_id self)
                            (text_or_empty new_message) 10 ;;
  inject_suburb_preferences context ;;;
  inject_facts context ;;;
  inject_property_interactions context.

(** *** The tools *)

(** [o or d] for an optional [int] argument. *)
Definition or_Z (o : option Z) (d : Z) : Z :=
  match o with
  | Some z => if z =? 0 then d else z
  | None => d
  end.

(** [o or d] for an optional [str] argument. *)
Definition or_str (o : option string) (d : string) : string :=
  match o with
  | Some (String _ _ as s) => s
  | _ => d
  end.

(** The [results] list display of [search_properties]. *)
Definition search_results (location : string) (budget_max bedrooms : option Z)
           (property_type : option string) : list value :=
  [ VDict [("id", VStr "prop-001");
           ("address", VStr (PyStr.of_Z (or_Z bedrooms 3) ++ " Bedroom "
                             ++ or_str property_type "House" ++ " in "
                             ++ location));
           ("price", VInt (or_Z budget_max 1500000));
           ("bedrooms", VInt (or_Z bedrooms 3));
           ("bathrooms", VInt 2);
           ("description", VStr "Modern property with great natural light")];
    VDict [("id", VStr "prop-002");
           ("address", VStr (PyStr.of_Z (or_Z bedrooms 2)
                             ++ " Bedroom Apartment in " ++ location));
           ("price", VInt (or_Z budget_max 1000000 - 200000));
           ("bedrooms", VInt (or_Z bedrooms 2));
           ("bathrooms", VInt 1);
           ("description", VStr "Recently renovated with new kitchen")] ].

(** The [return] statement ends with its first string literal; the two
    f-strings on the lines after it are expression statements of their own,
    which control never reaches. *)
Definition search_properties (self : HausAgent) (location : string)
           (budget_min budget_max bedrooms : option Z)
           (property_type : option string) : M string :=
  let results := search_results location budget_max bedrooms property_type in
  forM_ (fun prop =>
           pid <- subscript prop "id" ;;
           _ <- remember_conversation (convex self) (user_id self)
                  ("Search for properties in " ++ location)
                  (json_dumps (VDict [("results", VList results)]))
                  pid prop ;;
           ret tt)
        results ;;;
  ret ("Found " ++ PyStr.of_Z (Z.of_nat (List.length results))
       ++ " properties in " ++ location ++ ". ").

(** What a tool reads of its [RunContext]: [context.session], and of that
    object the attribute [chat_context].  [None]: the session defines no
    such attribute, and reading it raises [AttributeError]. *)
Record AgentSession : Type := mkAgentSession {
  chat_context : option (list ChatMessage)
}.

Record RunContext : Type := mkRunContext {
  session : AgentSession
}.

(** The session the framework hands to a function tool: the [AgentSession]
    of livekit-agents keeps the conversation under [history] and defines no
    attribute [chat_context]. *)
Definition livekit_session : AgentSession := mkAgentSession None.

(** [context.session.chat_context]. *)
Definition read_chat_context (context : RunContext) : M (list ChatMessage) :=
  match chat_context (session context) with
  | Some messages => ret messages
  | None => raise AttributeError
  end.

(** [d[k] = v] on the entries of a dict. *)
Fixpoint dict_set (k : string) (v : value) (d : list (string * value))
  : list (string * value) :=
  match d with
  | [] => [(k, v)]
  | (k', v') :: d' =>
      if String.eqb k k' then (k, v) :: d' else (k', v') :: dict_set k v d'
  end.

(** [parts[i]] on a list of strings. *)
Definition item (parts : list string) (i : nat) : M string :=
  match nth_error parts i with
  | Some s => ret s
  | None => raise IndexError
  end.

(** The [metadata] dict of [remember_preference], as it stands when
    [store_preference] is called.  The conditional expression of its first
    entry reads [context.session.chat_context] for its test, and again for
    [chat_context[-1]] when the test is true. *)
Definition preference_metadata (context : RunContext)
           (category preference : string) : M value :=
  tested <- read_chat_context context ;;
  mentioned <- match tested with
               | _ :: _ =>
                   messages <- read_chat_context context ;;
                   match rev messages with
                   | last_message :: _ =>
                       ret (of_option_str (text_content last_message))
                   | [] => raise IndexError
                   end
               | [] => ret VNone
               end ;;
  let metadata := [("mentionedInQuery", mentioned)] in
  if String.eqb category "suburb" then
    let parts := PyStr.split preference ", " in
    suburb <- item parts 0 ;;
    state <- (if (1 <? List.length parts)%nat
              then item parts 1 else ret "NSW") ;;
    ret (VDict (dict_set "reason" (VStr "User stated this directly")
               (dict_set "state" (VStr state)
               (dict_set "suburbName" (VStr suburb) metadata))))
  else ret (VDict metadata).

Definition remember_preference (self : HausAgent) (context : RunContext)
           (category preference : string) (is_positive : bool) : M string :=
  let confidence := if is_positive then 80 else 70 in
  metadata <- preference_metadata context category preference ;;
  success <- store_preference (convex self) (user_id self) category
                              preference confidence metadata ;;
  if truthy success then
    let sentiment := if is_positive then "love" else "prefer to avoid" in
    ret ("Got it! I'll remember you " ++ sentiment ++ " " ++ preference
         ++ " for future searches.")
  else
    ret "I had trouble saving that preference, but I'll keep it in mind for this conversation.".

(** The mock table of [get_property_details]. *)
Definition prop_001 : value :=
  VDict [("id", VStr "prop-001");
         ("address", VStr "42 Ocean Street, Bondi Beach NSW 2026");
         ("price", VInt 1500000);
         ("bedrooms", VInt 3);
         ("bathrooms", VInt 2);
         ("parking", VInt 1);
         ("landsize", VStr "450m²");
         ("year", VInt 2020);
         ("features", VList [VStr "Ocean views"; VStr "Modern kitchen";
                             VStr "Air conditioning";
                             VStr "Close to beach"]);
         ("description", VStr "Stunning modern home with breathtaking ocean views. Recently renovated with premium finishes throughout.")].

Definition prop_002 : value :=
  VDict [("id", VStr "prop-002");
         ("address", VStr "15 Beach Road, Bondi Beach NSW 2026");
         ("price", VInt 800000);
         ("bedrooms", VInt 2);
         ("bathrooms", VInt 1);
         ("parking", VInt 1);
         ("landsize", VStr "120m²");
         ("year", VInt 2019);
         ("features", VList [VStr "New kitchen"; VStr "Floorboards";
                             VStr "North facing"]);
         ("description", VStr "Chic apartment in prime location, moments from the beach.")].

Definition properties : value :=
  VDict [("prop-001", prop_001); ("prop-002", prop_002)].

Definition newline : string := String (ascii_of_nat 10) EmptyString.

Definition get_property_details (self : HausAgent) (property_id : string)
  : M string :=
  prop <- get properties property_id VNone ;;
  if negb (truthy prop) then
    ret ("Sorry, I couldn't find details for property " ++ property_id ++ ".")
  else
    _ <- remember_conversation (convex self) (user_id self)
           ("Get details for " ++ property_id) (json_dumps prop)
           (VStr property_id) prop ;;
    address <- subscript prop "address" ;;
    price <- subscript prop "price" ;;
    price_text <- format_comma price ;;
    bedrooms <- subscript prop "bedrooms" ;;
    bathrooms <- subscript prop "bathrooms" ;;
    parking <- subscript prop "parking" ;;
    year <- subscript prop "year" ;;
    features <- subscript prop "features" ;;
    shown <- slice_to 3 features ;;
    features_text <- join_value ", " shown ;;
    description <- subscript prop "description" ;;
    ret (str address ++ newline
         ++ "Price: $" ++ price_text ++ newline
         ++ str bedrooms ++ " bed, " ++ str bathrooms ++ " bath, "
         ++ str parking ++ " parking" ++ newline
         ++ "Built: " ++ str year ++ newline ++ newline
         ++ "Features: " ++ features_text ++ newline ++ newline
         ++ str description).

(** *** Identity resolution in [haus_agent]

    [job_metadata = json.loads(ctx.job.metadata) if ctx.job.metadata else {}]
    and [user_id = job_metadata.get("userId") or ctx.room.name or "anonymous"]. *)
Definition resolve_user_id (metadata : string) (room_name : option string)
  : M value :=
  job_metadata <- (if truthy (VStr metadata)
                   then (fun st => (json_loads metadata, st))
                   else ret (VDict [])) ;;
  claimed <- get job_metadata "userId" VNone ;;
  ret (py_or (py_or claimed (of_option_str room_name)) (VStr "anonymous")).

End Worker.


(** ** Configuration *)

Record HausConfig : Type := mkHausConfig {
  livekit_api_key : string;
  livekit_api_secret : string;
  livekit_url : string;
  convex_url : string;
  openai_api_key : string;
  elevenlabs_api_key : option string;
  stt : string;
  llm : string;
  tts : string;
  tts_voice : string
}.

(** [ConvexClient.__init__]: the base URL is the configured one without its
    trailing slashes. *)
Definition ConvexClient_init (config : HausConfig) : ConvexClient :=
  mkConvexClient (PyStr.rstrip (convex_url config) "/").

(** ** Vocabulary of the statements *)

(** The status test of [raise_for_status]. *)
Definition is_success (r : Response) : bool :=
  (200 <=? status_code r) && (status_code r <? 300).

(** The three ways a call of the memory service fails: the transport raises,
    the status is not 2xx, the body is not a JSON document. *)
Definition service_failure (r : Reply) : bool :=
  match r with
  | PostRaises TransportError => true
  | PostRaises _ => false
  | PostReturns resp =>
      negb (is_success resp)
      || match body resp with None => true | Some _ => false end
  end.

(** The task is cancelled while it awaits the reply. *)
Definition cancelled (r : Reply) : bool :=
  match r with
  | PostRaises e => negb (is_Exception e)
  | PostReturns _ => false
  end.

Definition recall_fields : list string :=
  ["memories"; "facts"; "propertyInteractions"; "suburbPreferences"].

(** [v] is a dict that has every key of [keys]. *)
Definition has_keys (keys : list string) (v : value) : bool :=
  match v with
  | VDict d =>
      forallb (fun k => match dict_lookup k d with
                        | Some _ => true
                        | None => false
                        end) keys
  | _ => false
  end.

(** The field [key] of a recall result is absent or falsy, or a list whose
    first [n] entries are records with the keys [keys]. *)
Definition field_ok (keys : list string) (n : nat) (key : string)
           (d : list (string * value)) : bool :=
  match dict_lookup key d with
  | None => true
  | Some v =>
      if truthy v then
        match v with
        | VList l => forallb (has_keys keys) (firstn n l)
        | _ => false
        end
      else true
  end.

(** [entry[k]] of a record of a recall result, [None] standing for a key
    that is not there. *)
Definition field (k : string) (entry : value) : value :=
  match entry with
  | VDict d => match dict_lookup k d with Some x => x | None => VNone end
  | _ => VNone
  end.

Section Messages.

Variable format_float : string -> float -> string.
Variable repr_container : value -> string.

Let str' := str format_float repr_container.

(** One suburb preference as the summary lists it. *)
Definition suburb_entry (p : value) : string :=
  str' (field "suburbName" p) ++ " (score: "
  ++ str' (field "preferenceScore" p) ++ ")".

(** The message that carries the suburb preferences [prefs]. *)
Definition suburb_message (prefs : list value) : ChatMessage :=
  mkChatMessage "assistant"
    (Some ("User's suburb preferences: "
           ++ PyStr.join ", " (map suburb_entry prefs))).

(** The message that carries one fact. *)
Definition fact_message (fact : value) : ChatMessage :=
  mkChatMessage "assistant"
    (Some ("Remembered: " ++ str' (field "fact" fact) ++ " (confidence: "
           ++ str' (field "confidence" fact) ++ "%)")).

End Messages.

Definition starts_with (pre : string) (m : ChatMessage) : bool :=
  match text_content m with
  | Some s => prefix pre s
  | None => false
  end.

Definition is_suburb_message : ChatMessage -> bool :=
  starts_with "User's suburb preferences: ".

Definition is_fact_message : ChatMessage -> bool :=
  starts_with "Remembered: ".

Definition is_interaction_message : ChatMessage -> bool :=
  starts_with "User recently viewed: ".

(** The price of the [i]-th candidate of a result list. *)
Definition candidate_price (results : list value) (i : nat) : option value :=
  match nth_error results i with
  | Some (VDict d) => dict_lookup "price" d
  | _ => None
  end.

(** The request [store_preference] posts. *)
Definition store_request (self : ConvexClient)
           (user_id category preference : string) (confidence : Z)
           (metadata : value) : Request :=
  mkRequest (base_url self ++ "/api/cortex/store-preference")
            (VDict [("userId", VStr user_id);
                    ("category", VStr category);
                    ("preference", VStr preference);
                    ("confidence", VInt confidence);
                    ("metadata", metadata)]).

(** The request [recall_context] posts. *)
Definition recall_request (self : ConvexClient) (user_id query : string)
           (limit : Z) : Request :=
  mkRequest (base_url self ++ "/api/cortex/recall")
            (VDict [("userId", VStr user_id);
                    ("query", VStr query);
                    ("limit", VInt limit)]).

Definition soft_degradation : string :=
  "I had trouble saving that preference, but I'll keep it in mind for this conversation.".

(** ** Sample environments *)

Module Sample.

(** A memory service that acknowledges every request. *)
Definition backend_ok : list Request -> Request -> Reply :=
  fun _ _ => PostReturns (mkResponse 200 (Some (VDict [("success", VBool true)]))).

(** A memory service that answers every request with status 500. *)
Definition backend_down : list Request -> Request -> Reply :=
  fun _ _ => PostReturns (mkResponse 500 (Some (VDict [("error", VStr "internal")]))).

(** A memory service that recalls two suburbs and one fact. *)
Definition recalled : value :=
  VDict [("memories", VList []);
         ("facts", VList [VDict [("fact", VStr "wants a garden");
                                 ("confidence", VInt 90)]]);
         ("propertyInteractions", VList []);
         ("suburbPreferences",
          VList [VDict [("suburbName", VStr "Bondi");
                        ("preferenceScore", VInt 9)];
                 VDict [("suburbName", VStr "Manly");
                        ("preferenceScore", VInt 7)]])].

Definition backend_recall : list Request -> Request -> Reply :=
  fun _ _ => PostReturns (mkResponse 200 (Some recalled)).

Definition json_dumps : value -> string := fun _ => "{}".

Definition quote : string := String (ascii_of_nat 34) EmptyString.

(** The JSON text of an object whose [userId] is the empty string. *)
Definition blank_user : string :=
  "{" ++ quote ++ "userId" ++ quote ++ ": " ++ quote ++ quote ++ "}".

Definition json_loads : string -> outcome value :=
  fun s => if String.eqb s blank_user
           then Returns (VDict [("userId", VStr EmptyString)])
           else Raises JSONDecodeError.

Definition format_float : string -> float -> string := fun _ _ => "0.0".

Definition repr_container : value -> string := fun _ => "[...]".

Definition agent : HausAgent :=
  mkHausAgent (mkConvexClient "https://haus.convex.cloud") "u1".

Definition start : State := mkState [] [].

Definition utterance : ChatMessage :=
  mkChatMessage "user" (Some "Anything near the beach?").

End Sample.

(** ** Properties of computations *)

(** [appends P m]: whatever [m] does, it leaves the messages that were in
    the turn context in place and adds only messages that satisfy [P]. *)
Definition appends {A} (P : ChatMessage -> Prop) (m : M A) : Prop :=
  forall st o st',
    m st = (o, st') ->
    exists extra, turn_ctx st' = (turn_ctx st ++ extra)%list /\ Forall P extra.

(** [yields Q m]: [m] returns a value that satisfies [Q], unless what it
    raises is not an [Exception] (the task was cancelled). *)
Definition yields {A} (Q : A -> Prop) (m : M A) : Prop :=
  forall st,
    match fst (m st) with
    | Returns a => Q a
    | Raises e => is_Exception e = false
    end.

(** [preserves f m]: [m] leaves the component [f] of the state as it was. *)
Definition preserves {A X} (f : State -> X) (m : M A) : Prop :=
  forall st o st', m st = (o, st') -> f st' = f st.

(** [bounded Q n m]: [m] appends at most [n] messages to the turn context,
    and what it returns satisfies [Q]. *)
Definition bounded {A} (Q : A -> Prop) (n : nat) (m : M A) : Prop :=
  forall st o st',
    m st = (o, st') ->
    (exists extra,
        turn_ctx st' = (turn_ctx st ++ extra)%list
        /\ (List.length extra <= n)%nat)
    /\ match o with
       | Returns a => Q a
       | Raises _ => True
       end.

(** A sequence of at most [n] items. *)
Definition short (n : nat) (v : value) : Prop :=
  match v with
  | VList l => (List.length l <= n)%nat
  | VStr s => (String.length s <= n)%nat
  | VDict d => (List.length d <= n)%nat
  | _ => True
  end.

(** The message that carries one property interaction. *)
Definition interaction_message (format_float : string -> float -> string)
           (repr_container : value -> string) (interaction : value)
  : ChatMessage :=
  mkChatMessage "assistant"
    (Some ("User recently viewed: "
           ++ str format_float repr_container (field "propertyId" interaction)
           ++ " ("
           ++ str format_float repr_container
                  (field "interactionType" interaction)
           ++ ")")).

(** The entries of the field [key] of a recall result that a step visits:
    the first [n] of a list, none of anything else. *)
Definition listed (n : nat) (key : string) (d : list (string * value))
  : list value :=
  match dict_lookup key d with
  | Some (VList l) => firstn n l
  | _ => []
  end.

(** The request [remember_conversation] posts. *)
Definition remember_request (self : ConvexClient)
           (user_id user_query agent_response : string)
           (property_id property_context : value) : Request :=
  mkRequest (base_url self ++ "/api/cortex/remember")
            (VDict [("userId", VStr user_id);
                    ("userQuery", VStr user_query);
                    ("agentResponse", VStr agent_response);
                    ("propertyId", property_id);
                    ("propertyContext", property_context)]).

(** The request [ensure_memory_space] posts. *)
Definition ensure_request (self : ConvexClient) (user_id : string) : Request :=
  mkRequest (base_url self ++ "/api/cortex/ensure-memory-space")
            (VDict [("userId", VStr user_id)]).

(** The reply is a 2xx response whose body is the JSON document [v]. *)
Definition replies_with (v : value) (r : Reply) : Prop :=
  exists code,
    r = PostReturns (mkResponse code (Some v))
    /\ is_success (mkResponse code (Some v)) = true.

(** ** Facts about strings *)

Lemma prefix_empty (s : string) : prefix EmptyString s = true.
Proof. now destruct s. Qed.

Lemma prefix_append (p s : string) : prefix p (p ++ s) = true.
Proof.
  induction p as [| c p IH]; simpl.
  - apply prefix_empty.
  - destruct (Ascii.ascii_dec c c) as [_ | N]; [exact IH | now elim N].
Qed.

Lemma contains_here (n h : string) : prefix n h = true -> PyStr.contains n h = true.
Proof. intros H. destruct h; cbn [PyStr.contains]; rewrite H; reflexivity. Qed.

Lemma contains_append (n a b : string) : PyStr.contains n (a ++ n ++ b) = true.
Proof.
  induction a as [| c a IH].
  - cbn [append]. apply contains_here, prefix_append.
  - cbn [PyStr.contains append]. rewrite IH. apply orb_true_r.
Qed.

(** ** Reasoning about [M] *)

Section Appends.

Variable P : ChatMessage -> Prop.

Lemma appends_ret {A} (a : A) : appends P (ret a).
Proof.
  intros st o st' H. inversion H; subst. exists [].
  split; [now rewrite app_nil_r | constructor].
Qed.

Lemma appends_raise {A} (e : exn) : appends P (@raise A e).
Proof.
  intros st o st' H. inversion H; subst. exists [].
  split; [now rewrite app_nil_r | constructor].
Qed.

Lemma appends_bind {A B} (m : M A) (k : A -> M B) :
  appends P m -> (forall a, appends P (k a)) -> appends P (bind m k).
Proof.
  intros Hm Hk st o st' H. unfold bind in H.
  destruct (m st) as [[a | e] st1] eqn:E.
  - destruct (Hm _ _ _ E) as (x1 & E1 & F1).
    destruct (Hk a _ _ _ H) as (x2 & E2 & F2).
    exists (x1 ++ x2)%list. split.
    + now rewrite E2, E1, app_assoc.
    + apply Forall_app; split; assumption.
  - inversion H; subst. exact (Hm _ _ _ E).
Qed.

Lemma appends_if {A} (b : bool) (m1 m2 : M A) :
  appends P m1 -> appends P m2 -> appends P (if b then m1 else m2).
Proof. destruct b; auto. Qed.

Lemma appends_forM_ {A} (f : A -> M unit) (l : list A) :
  (forall x, appends P (f x)) -> appends P (forM_ f l).
Proof.
  intros Hf. induction l as [| x l IH]; simpl.
  - apply appends_ret.
  - apply appends_bind; [apply Hf | intros _; exact IH].
Qed.

Lemma appends_mapM {A B} (f : A -> M B) (l : list A) :
  (forall x, appends P (f x)) -> appends P (mapM f l).
Proof.
  intros Hf. induction l as [| x l IH]; simpl.
  - apply appends_ret.
  - apply appends_bind; [apply Hf | intros y].
    apply appends_bind; [exact IH | intros ys; apply appends_ret].
Qed.

Lemma appends_subscript v k : appends P (subscript v k).
Proof.
  unfold subscript. destruct v; try apply appends_raise.
  destruct (dict_lookup k entries); [apply appends_ret | apply appends_raise].
Qed.

Lemma appends_get v k dflt : appends P (get v k dflt).
Proof.
  unfold get. destruct v; try apply appends_raise.
  destruct (dict_lookup k entries); apply appends_ret.
Qed.

Lemma appends_slice_to n v : appends P (slice_to n v).
Proof.
  unfold slice_to. destruct v; first [apply appends_ret | apply appends_raise].
Qed.

Lemma appends_iter v : appends P (iter v).
Proof.
  unfold iter. destruct v; first [apply appends_ret | apply appends_raise].
Qed.

Lemma appends_add_message r content :
  P (mkChatMessage r (Some content)) -> appends P (add_message r content).
Proof.
  intros HP st o st' H. inversion H; subst. simpl.
  eexists. split; [reflexivity | now constructor].
Qed.

Lemma appends_try_except {A} (body : M A) (handler : exn -> M A) :
  appends P body -> (forall e, appends P (handler e)) ->
  appends P (try_except body handler).
Proof.
  intros Hb Hh st o st' H. unfold try_except in H.
  destruct (body st) as [[a | e] st1] eqn:E.
  - inversion H; subst. exact (Hb _ _ _ E).
  - destruct (is_Exception e).
    + destruct (Hb _ _ _ E) as (x1 & E1 & F1).
      destruct (Hh e _ _ _ H) as (x2 & E2 & F2).
      exists (x1 ++ x2)%list. split.
      * now rewrite E2, E1, app_assoc.
      * apply Forall_app; split; assumption.
    + inversion H; subst. exact (Hb _ _ _ E).
Qed.

End Appends.

Create HintDb appends.

#[local] Hint Resolve appends_ret appends_raise appends_subscript appends_get
  appends_slice_to appends_iter : appends.

(** A step that adds nothing leaves the turn context as it was. *)
Lemma appends_nothing {A} (m : M A) st o st' :
  appends (fun _ => False) m -> m st = (o, st') -> turn_ctx st' = turn_ctx st.
Proof.
  intros Hm H. destruct (Hm _ _ _ H) as (extra & E & F).
  destruct extra as [| x extra]; [now rewrite app_nil_r in E |].
  inversion F; contradiction.
Qed.

Ltac appends_step :=
  first [ apply appends_bind; [| intro]
        | apply appends_if
        | apply appends_forM_; intro
        | apply appends_mapM; intro
        | apply appends_try_except; [| intro]
        | solve [auto with appends] ].

Section ClientFacts.

Variable backend : list Request -> Request -> Reply.
Variable P : ChatMessage -> Prop.

Lemma appends_post u payload : appends P (post backend u payload).
Proof.
  intros st o st' H. unfold post in H. exists [].
  split; [| constructor].
  destruct (backend (sent st) (mkRequest u payload));
    inversion H; subst; simpl; now rewrite app_nil_r.
Qed.

Lemma appends_raise_for_status r : appends P (raise_for_status r).
Proof. unfold raise_for_status. appends_step; auto with appends. Qed.

Lemma appends_response_json r : appends P (response_json r).
Proof. unfold response_json. destruct (body r); auto with appends. Qed.

Hint Resolve appends_post appends_raise_for_status appends_response_json
  : appends.

Lemma appends_recall_context self uid q limit :
  appends P (recall_context backend self uid q limit).
Proof. unfold recall_context. repeat appends_step. Qed.

Lemma appends_remember_conversation self uid uq ar pid pctx :
  appends P (remember_conversation backend self uid uq ar pid pctx).
Proof. unfold remember_conversation. repeat appends_step. Qed.

Lemma appends_store_preference self uid cat pref conf md :
  appends P (store_preference backend self uid cat pref conf md).
Proof. unfold store_preference. repeat appends_step. Qed.

End ClientFacts.

Section MediatorFacts.

Variable format_float : string -> float -> string.
Variable repr_container : value -> string.

Lemma appends_inject_suburb_preferences context :
  appends (fun m => is_suburb_message m = true)
          (inject_suburb_preferences format_float repr_container context).
Proof.
  unfold inject_suburb_preferences. repeat appends_step.
  apply appends_add_message. apply prefix_append.
Qed.

Lemma appends_inject_facts context :
  appends (fun m => is_fact_message m = true)
          (inject_facts format_float repr_container context).
Proof.
  unfold inject_facts. repeat appends_step.
  apply appends_add_message. apply prefix_append.
Qed.

Lemma appends_inject_property_interactions context :
  appends (fun m => is_interaction_message m = true)
          (inject_property_interactions format_float repr_container context).
Proof.
  unfold inject_property_interactions. repeat appends_step.
  apply appends_add_message. apply prefix_append.
Qed.

End MediatorFacts.

(** ** The memory client *)

(** C3. When the call of the memory service fails (the transport raises, the
    status is not 2xx, or the body is not a JSON document), [recall_context]
    raises nothing: it returns the recall result whose four fields
    [memories], [facts], [propertyInteractions] and [suburbPreferences] are
    all empty lists. *)
Theorem recall_context_failure_gives_empty :
  forall backend self uid q limit st,
    service_failure (backend (sent st) (recall_request self uid q limit)) = true ->
    exists st',
      recall_context backend self uid q limit st = (Returns empty_recall, st')
      /\ forall k, In k recall_fields -> field k empty_recall = VList [].
Proof.
  intros backend self uid q limit st H. eexists. split.
  - unfold recall_context, try_except, bind, post.
    fold (recall_request self uid q limit).
    destruct (backend (sent st) (recall_request self uid q limit))
      as [e | r]; simpl in H.
    + destruct e; try discriminate H. reflexivity.
    + unfold raise_for_status, response_json. unfold is_success in H.
      destruct ((200 <=? status_code r) && (status_code r <? 300)); simpl.
      * destruct (body r); [discriminate H | reflexivity].
      * reflexivity.
  - intros k Hk. simpl in Hk.
    repeat (destruct Hk as [<- | Hk]; [reflexivity |]). contradiction.
Qed.

Lemma recall_context_failure_gives_empty_witness :
  exists st',
    recall_context Sample.backend_down (convex Sample.agent) "u1" "hello" 10
                   Sample.start = (Returns empty_recall, st')
    /\ forall k, In k recall_fields -> field k empty_recall = VList [].
Proof.
  apply (recall_context_failure_gives_empty
           Sample.backend_down (convex Sample.agent) "u1" "hello" 10
           Sample.start).
  reflexivity.
Defined.

(** ** The mediator *)

Lemma prefix_split (p s : string) :
  prefix p s = true -> exists t, s = p ++ t.
Proof.
  revert s. induction p as [| c p IH]; intros s H.
  - now exists s.
  - destruct s as [| c' s]; [discriminate H |]. cbn [prefix] in H.
    destruct (Ascii.ascii_dec c c') as [<- | _]; [| discriminate H].
    destruct (IH _ H) as (t & ->). now exists t.
Qed.

(** Two kinds of injected message are told apart by how they start. *)
Ltac other_kind :=
  let m := fresh "m" in
  let H := fresh "H" in
  let s := fresh "s" in
  let t := fresh "t" in
  intros m H;
  unfold is_suburb_message, is_fact_message, is_interaction_message,
    starts_with in *;
  destruct (text_content m) as [s |]; [| discriminate H];
  destruct (prefix_split _ _ H) as (t & ->); reflexivity.

Lemma suburb_not_fact :
  forall m, is_suburb_message m = true -> is_fact_message m = false.
Proof. other_kind. Qed.

Lemma interaction_not_fact :
  forall m, is_interaction_message m = true -> is_fact_message m = false.
Proof. other_kind. Qed.

Lemma fact_not_suburb :
  forall m, is_fact_message m = true -> is_suburb_message m = false.
Proof. other_kind. Qed.

Lemma interaction_not_suburb :
  forall m, is_interaction_message m = true -> is_suburb_message m = false.
Proof. other_kind. Qed.

Lemma none_of_kind (Q R : ChatMessage -> bool) (l : list ChatMessage) :
  (forall m, Q m = true -> R m = false) ->
  Forall (fun m => Q m = true) l -> existsb R l = false.
Proof.
  intros HQR. induction 1 as [| m l Hm _ IH]; simpl.
  - reflexivity.
  - now rewrite (HQR _ Hm), IH.
Qed.

Lemma firstn_length_min {A} (n : nat) (l : list A) :
  List.length (firstn n l) = Nat.min n (List.length l).
Proof. apply length_firstn. Qed.

Section Injection.

Variable format_float : string -> float -> string.
Variable repr_container : value -> string.

Abbreviation str' := (str format_float repr_container).

Lemma subscript_present (k : string) (p : value) (st : State) :
  has_keys [k] p = true -> subscript p k st = (Returns (field k p), st).
Proof.
  unfold has_keys, subscript, field. destruct p; try discriminate.
  simpl. destruct (dict_lookup k entries); [reflexivity | discriminate].
Qed.

Lemma has_keys_pair (k1 k2 : string) (p : value) :
  has_keys [k1; k2] p = true ->
  has_keys [k1] p = true /\ has_keys [k2] p = true.
Proof.
  unfold has_keys. destruct p; try discriminate. simpl.
  destruct (dict_lookup k1 entries), (dict_lookup k2 entries);
    simpl; intros H; try discriminate H; auto.
Qed.

Lemma suburb_entries (items : list value) (st : State) :
  forallb (has_keys ["suburbName"; "preferenceScore"]) items = true ->
  mapM (fun p =>
          name <- subscript p "suburbName" ;;
          score <- subscript p "preferenceScore" ;;
          ret (str' name ++ " (score: " ++ str' score ++ ")"))
       items st
  = (Returns (map (suburb_entry format_float repr_container) items), st).
Proof.
  induction items as [| p items IH]; intros H; [reflexivity |].
  cbn [forallb] in H. apply andb_prop in H as [Hp Hr].
  apply has_keys_pair in Hp as [H1 H2].
  cbn [mapM map]. unfold bind at 1 2 3.
  rewrite (subscript_present _ _ _ H1), (subscript_present _ _ _ H2).
  unfold ret at 1. unfold bind at 1. rewrite (IH Hr). reflexivity.
Qed.

Lemma fact_messages (items : list value) (st : State) :
  forallb (has_keys ["fact"; "confidence"]) items = true ->
  forM_ (fun fact =>
           text <- subscript fact "fact" ;;
           confidence <- subscript fact "confidence" ;;
           add_message "assistant"
                       ("Remembered: " ++ str' text ++ " (confidence: "
                        ++ str' confidence ++ "%)"))
        items st
  = (Returns tt,
     mkState (sent st)
             (turn_ctx st
              ++ map (fact_message format_float repr_container) items)).
Proof.
  revert st. induction items as [| p items IH]; intros st H.
  - simpl. unfold ret. rewrite app_nil_r. now destruct st.
  - cbn [forallb] in H. apply andb_prop in H as [Hp Hr].
    apply has_keys_pair in Hp as [H1 H2].
    cbn [forM_ map]. unfold bind at 1 2 3.
    rewrite (subscript_present _ _ _ H1), (subscript_present _ _ _ H2).
    unfold add_message at 1. rewrite (IH _ Hr). simpl.
    now rewrite <- app_assoc.
Qed.

Lemma inject_suburb_preferences_listed d prefs st :
  dict_lookup "suburbPreferences" d = Some (VList prefs) ->
  prefs <> [] ->
  forallb (has_keys ["suburbName"; "preferenceScore"]) (firstn 5 prefs) = true ->
  inject_suburb_preferences format_float repr_container (VDict d) st
  = (Returns tt,
     mkState (sent st)
             (turn_ctx st
              ++ [suburb_message format_float repr_container
                                 (firstn 5 prefs)])).
Proof.
  intros Hd Hne Hwf. unfold inject_suburb_preferences, get, subscript.
  rewrite Hd. unfold bind at 1. unfold ret at 1.
  replace (truthy (VList prefs)) with true
    by (destruct prefs; [contradiction | reflexivity]).
  unfold bind at 1. unfold ret at 1.
  unfold bind at 1. unfold slice_to, ret at 1.
  unfold bind at 1. unfold iter, ret at 1.
  unfold bind at 1. rewrite (suburb_entries _ _ Hwf). reflexivity.
Qed.

Lemma inject_facts_listed d facts st :
  dict_lookup "facts" d = Some (VList facts) ->
  facts <> [] ->
  forallb (has_keys ["fact"; "confidence"]) (firstn 5 facts) = true ->
  inject_facts format_float repr_container (VDict d) st
  = (Returns tt,
     mkState (sent st)
             (turn_ctx st
              ++ map (fact_message format_float repr_container)
                     (firstn 5 facts))).
Proof.
  intros Hd Hne Hwf. unfold inject_facts, get, subscript.
  rewrite Hd. unfold bind at 1. unfold ret at 1.
  replace (truthy (VList facts)) with true
    by (destruct facts; [contradiction | reflexivity]).
  unfold bind at 1. unfold ret at 1.
  unfold bind at 1. unfold slice_to, ret at 1.
  unfold bind at 1. unfold iter, ret at 1.
  apply (fact_messages _ _ Hwf).
Qed.

(** A well-formed suburb field never makes the first step raise. *)
Lemma inject_suburb_preferences_returns d st :
  field_ok ["suburbName"; "preferenceScore"] 5 "suburbPreferences" d = true ->
  exists extra,
    inject_suburb_preferences format_float repr_container (VDict d) st
    = (Returns tt, mkState (sent st) (turn_ctx st ++ extra))
    /\ Forall (fun m => is_suburb_message m = true) extra.
Proof.
  unfold field_ok. intros H.
  destruct (dict_lookup "suburbPreferences" d) as [v |] eqn:Hd.
  - destruct (truthy v) eqn:Ht.
    + destruct v; try discriminate H.
      assert (Hne : items <> []) by (destruct items; discriminate).
      eexists. split.
      * apply (inject_suburb_preferences_listed _ _ _ Hd Hne H).
      * constructor; [apply prefix_append | constructor].
    + exists []. split; [| constructor].
      unfold inject_suburb_preferences, get. rewrite Hd.
      unfold bind, ret. rewrite Ht, app_nil_r. now destruct st.
  - exists []. split; [| constructor].
    unfold inject_suburb_preferences, get. rewrite Hd.
    unfold bind, ret. simpl. rewrite app_nil_r. now destruct st.
Qed.

End Injection.

(** C4. When the recall result holds a non-empty [suburbPreferences] list,
    [on_user_turn_completed] appends to the turn context exactly one
    suburb-preference message: it has the role ["assistant"], it lists the
    first five entries at most, in the order of the recall result, each as
    [name (score: score)], joined by a comma and a space; no message that
    follows it is a suburb-preference message. *)
Theorem suburb_preferences_injected_once :
  forall backend format_float repr_container self new_message st d st1 prefs,
    recall_context backend (convex self) (user_id self)
                   (text_or_empty new_message) 10 st
    = (Returns (VDict d), st1) ->
    dict_lookup "suburbPreferences" d = Some (VList prefs) ->
    prefs <> [] ->
    forallb (has_keys ["suburbName"; "preferenceScore"]) (firstn 5 prefs) = true ->
    exists after o st',
      on_user_turn_completed backend format_float repr_container self
                             new_message st = (o, st')
      /\ turn_ctx st'
         = (turn_ctx st
            ++ mkChatMessage "assistant"
                 (Some ("User's suburb preferences: "
                        ++ PyStr.join ", "
                             (map (suburb_entry format_float repr_container)
                                  (firstn 5 prefs)))%string)
               :: after)%list
      /\ existsb is_suburb_message after = false
      /\ (List.length (firstn 5 prefs) <= 5)%nat.
Proof.
  intros backend ff rc self new_message st d st1 prefs Hrecall Hd Hne Hwf.
  pose proof (appends_nothing _ _ _ _
                (appends_recall_context backend _ _ _ _ _) Hrecall) as Hctx.
  unfold on_user_turn_completed. unfold bind at 1. rewrite Hrecall.
  unfold bind at 1.
  rewrite (inject_suburb_preferences_listed ff rc _ _ st1 Hd Hne Hwf).
  set (st2 := mkState _ _).
  destruct (bind (inject_facts ff rc (VDict d))
                 (fun _ => inject_property_interactions ff rc (VDict d)) st2)
    as [o st'] eqn:Hrest.
  assert (Hafter : appends
            (fun m => is_fact_message m = true \/ is_interaction_message m = true)
            (bind (inject_facts ff rc (VDict d))
                  (fun _ => inject_property_interactions ff rc (VDict d)))).
  { apply appends_bind; [| intros _].
    - intros s o' s' H.
      destruct (appends_inject_facts ff rc _ _ _ _ H) as (x & E & F).
      exists x. split; [exact E |].
      eapply Forall_impl; [| exact F]. now left.
    - intros s o' s' H.
      destruct (appends_inject_property_interactions ff rc _ _ _ _ H)
        as (x & E & F).
      exists x. split; [exact E |].
      eapply Forall_impl; [| exact F]. now right. }
  destruct (Hafter _ _ _ Hrest) as (after & E & F).
  exists after, o, st'. split; [reflexivity |]. split; [| split].
  - rewrite E. subst st2. cbn [turn_ctx]. rewrite Hctx, <- app_assoc.
    reflexivity.
  - clear E. induction F as [| m l Hm _ IH]; [reflexivity |].
    cbn [existsb]. rewrite IH, orb_false_r.
    destruct Hm as [Hm | Hm];
      [now apply fact_not_suburb | now apply interaction_not_suburb].
  - rewrite firstn_length_min. apply Nat.le_min_l.
Qed.

Lemma suburb_preferences_injected_once_witness :
  exists after o st',
    on_user_turn_completed Sample.backend_recall Sample.format_float
                           Sample.repr_container Sample.agent
                           Sample.utterance Sample.start = (o, st')
    /\ turn_ctx st'
       = (turn_ctx Sample.start
          ++ mkChatMessage "assistant"
               (Some "User's suburb preferences: Bondi (score: 9), Manly (score: 7)")
             :: after)%list
    /\ existsb is_suburb_message after = false
    /\ (2 <= 5)%nat.
Proof.
  refine (suburb_preferences_injected_once
            Sample.backend_recall Sample.format_float Sample.repr_container
            Sample.agent Sample.utterance Sample.start
            [("memories", VList []);
             ("facts", VList [VDict [("fact", VStr "wants a garden");
                                     ("confidence", VInt 90)]]);
             ("propertyInteractions", VList []);
             ("suburbPreferences",
              VList [VDict [("suburbName", VStr "Bondi");
                            ("preferenceScore", VInt 9)];
                     VDict [("suburbName", VStr "Manly");
                            ("preferenceScore", VInt 7)]])]
            _
            [VDict [("suburbName", VStr "Bondi"); ("preferenceScore", VInt 9)];
             VDict [("suburbName", VStr "Manly"); ("preferenceScore", VInt 7)]]
            _ _ _ _).
  - reflexivity.
  - reflexivity.
  - discriminate.
  - reflexivity.
Defined.

(** C5. When the recall result holds a non-empty [facts] list (and its
    suburb field is well formed), [on_user_turn_completed] appends one
    message per fact for the first five facts at most, in their order, each
    reading [Remembered: fact (confidence: confidence%)] with the text and
    the confidence of the fact as [str] prints them; no other message it adds
    is a fact message. *)
Theorem fact_messages_one_per_fact :
  forall backend format_float repr_container self new_message st d st1 facts,
    recall_context backend (convex self) (user_id self)
                   (text_or_empty new_message) 10 st
    = (Returns (VDict d), st1) ->
    field_ok ["suburbName"; "preferenceScore"] 5 "suburbPreferences" d = true ->
    dict_lookup "facts" d = Some (VList facts) ->
    facts <> [] ->
    forallb (has_keys ["fact"; "confidence"]) (firstn 5 facts) = true ->
    exists before after o st',
      on_user_turn_completed backend format_float repr_container self
                             new_message st = (o, st')
      /\ turn_ctx st'
         = (turn_ctx st ++ before
            ++ map (fun fact =>
                      mkChatMessage "assistant"
                        (Some ("Remembered: "
                               ++ str format_float repr_container
                                      (field "fact" fact)
                               ++ " (confidence: "
                               ++ str format_float repr_container
                                      (field "confidence" fact)
                               ++ "%)")%string))
                   (firstn 5 facts)
            ++ after)%list
      /\ existsb is_fact_message (before ++ after) = false
      /\ List.length (firstn 5 facts) = Nat.min 5 (List.length facts).
Proof.
  intros backend ff rc self new_message st d st1 facts
         Hrecall Hsub Hd Hne Hwf.
  pose proof (appends_nothing _ _ _ _
                (appends_recall_context backend _ _ _ _ _) Hrecall) as Hctx.
  destruct (inject_suburb_preferences_returns ff rc d st1 Hsub)
    as (before & Hbefore & Fbefore).
  unfold on_user_turn_completed. unfold bind at 1. rewrite Hrecall.
  unfold bind at 1. rewrite Hbefore.
  set (st2 := mkState _ _).
  unfold bind at 1.
  rewrite (inject_facts_listed ff rc _ _ st2 Hd Hne Hwf).
  set (st3 := mkState _ _).
  destruct (inject_property_interactions ff rc (VDict d) st3)
    as [o st'] eqn:Hrest.
  destruct (appends_inject_property_interactions ff rc _ _ _ _ Hrest)
    as (after & E & Fafter).
  exists before, after, o, st'. split; [reflexivity |]. split; [| split].
  - rewrite E. subst st3 st2. cbn [turn_ctx sent]. rewrite Hctx.
    rewrite <- !app_assoc. reflexivity.
  - rewrite existsb_app.
    rewrite (none_of_kind _ _ _ suburb_not_fact Fbefore).
    rewrite (none_of_kind _ _ _ interaction_not_fact Fafter). reflexivity.
  - apply firstn_length_min.
Qed.

Lemma fact_messages_one_per_fact_witness :
  exists before after o st',
    on_user_turn_completed Sample.backend_recall Sample.format_float
                           Sample.repr_container Sample.agent
                           Sample.utterance Sample.start = (o, st')
    /\ turn_ctx st'
       = (turn_ctx Sample.start ++ before
          ++ [mkChatMessage "assistant"
                (Some "Remembered: wants a garden (confidence: 90%)")]
          ++ after)%list
    /\ existsb is_fact_message (before ++ after) = false
    /\ 1%nat = Nat.min 5 1.
Proof.
  refine (fact_messages_one_per_fact
            Sample.backend_recall Sample.format_float Sample.repr_container
            Sample.agent Sample.utterance Sample.start
            [("memories", VList []);
             ("facts", VList [VDict [("fact", VStr "wants a garden");
                                     ("confidence", VInt 90)]]);
             ("propertyInteractions", VList []);
             ("suburbPreferences",
              VList [VDict [("suburbName", VStr "Bondi");
                            ("preferenceScore", VInt 9)];
                     VDict [("suburbName", VStr "Manly");
                            ("preferenceScore", VInt 7)]])]
            _
            [VDict [("fact", VStr "wants a garden"); ("confidence", VInt 90)]]
            _ _ _ _ _).
  - reflexivity.
  - reflexivity.
  - reflexivity.
  - discriminate.
  - reflexivity.
Defined.

(** ** The tools *)

Section ToolFacts.

Variable backend : list Request -> Request -> Reply.

(** Unless the task is cancelled, [remember_conversation] returns. *)
Lemma remember_conversation_returns self uid uq ar pid pctx st :
  (forall h rq, cancelled (backend h rq) = false) ->
  exists v st',
    remember_conversation backend self uid uq ar pid pctx st
    = (Returns v, st').
Proof.
  intros Hlive. unfold remember_conversation, try_except, bind, post.
  match goal with
  | |- context [backend ?h ?rq] =>
      pose proof (Hlive h rq) as Hc; destruct (backend h rq) as [e | r]
  end.
  - simpl in Hc. apply negb_false_iff in Hc. rewrite Hc.
    eexists _, _; reflexivity.
  - unfold raise_for_status.
    destruct ((200 <=? status_code r) && (status_code r <? 300)); simpl;
      [| eexists _, _; reflexivity].
    unfold response_json. destruct (body r) as [v |]; simpl;
      [| eexists _, _; reflexivity].
    unfold get. destruct v; simpl; try (eexists _, _; reflexivity).
    destruct (dict_lookup "success" entries); eexists _, _; reflexivity.
Qed.

End ToolFacts.

Lemma yields_ret {A} (Q : A -> Prop) (a : A) : Q a -> yields Q (ret a).
Proof. intros H st. exact H. Qed.

Lemma yields_bind {A B} (R : A -> Prop) (Q : B -> Prop)
      (m : M A) (k : A -> M B) :
  yields R m -> (forall a, R a -> yields Q (k a)) -> yields Q (bind m k).
Proof.
  intros Hm Hk st. unfold bind. specialize (Hm st).
  destruct (m st) as [[a | e] st1]; simpl in *.
  - exact (Hk a Hm st1).
  - exact Hm.
Qed.

Lemma yields_try_except {A} (body : M A) (handler : exn -> M A) :
  (forall e s, exists v s', handler e s = (Returns v, s')) ->
  yields (fun _ => True) (try_except body handler).
Proof.
  intros Hh st. unfold try_except.
  destruct (body st) as [[a | e] st1]; [exact I |].
  destruct (is_Exception e) eqn:He; [| exact He].
  destruct (Hh e st1) as (v & s' & ->). exact I.
Qed.

Lemma yields_remember_conversation backend self uid uq ar pid pctx :
  yields (fun _ => True)
         (remember_conversation backend self uid uq ar pid pctx).
Proof.
  unfold remember_conversation. apply yields_try_except.
  intros e s. now exists (VBool false), s.
Qed.

(** *** search_properties *)

(** For every input the summary is the first literal of the [return]
    statement alone. *)
Lemma search_properties_reply :
  forall backend json_dumps self location budget_min budget_max bedrooms
         property_type,
    yields (fun s => s = "Found 2 properties in " ++ location ++ ". ")
           (search_properties backend json_dumps self location budget_min
                              budget_max bedrooms property_type).
Proof.
  intros backend jd self location bmin bmax beds pt.
  unfold search_properties, search_results. cbn [forM_].
  apply yields_bind with (R := fun _ => True);
    [| intros _ _; now apply yields_ret].
  repeat (apply yields_bind with (R := fun _ => True); [| intros ? _]);
    try (now apply yields_ret);
    try apply yields_remember_conversation.
Qed.

(** C1 (evaluation of the code). A search for four bedrooms in Bondi with a
    budget of 2000000 answers [Found 2 properties in Bondi. ] and nothing
    more: the bedroom count of the top match, its price and the invitation to
    follow up, which the two f-strings after the [return] statement spell
    out, are not in the returned string. *)
Theorem search_properties_reply_stops_early :
  exists s,
    fst (search_properties Sample.backend_ok Sample.json_dumps Sample.agent
                           "Bondi" None (Some 2000000) (Some 4) None
                           Sample.start)
    = Returns s
    /\ s = "Found 2 properties in Bondi. "
    /\ PyStr.contains "4 bedroom" s = false
    /\ PyStr.contains "2,000,000" s = false
    /\ PyStr.contains "Would you like more details" s = false.
Proof. eexists. repeat split; vm_compute; reflexivity. Qed.

(** C2 (counterexample). Without [budget_max] the two candidates are priced
    1500000 and 800000: the second is not the first minus 200000. *)
Lemma second_price_not_always_200000_below :
  ~ (forall location budget_max bedrooms property_type,
        exists p1,
          candidate_price
            (search_results location budget_max bedrooms property_type) 0
          = Some (VInt p1)
          /\ candidate_price
               (search_results location budget_max bedrooms property_type) 1
             = Some (VInt (p1 - 200000))).
Proof.
  intros H. destruct (H "Bondi" None None None) as (p1 & H1 & H2).
  vm_compute in H1, H2. inversion H1; subst p1. discriminate H2.
Qed.

(** C2 (amended). When [budget_max] is given and not zero, the second
    candidate is priced 200000 below the first; when it is absent (or zero)
    the first candidate is priced 1500000 and the second 800000. *)
Theorem search_results_prices :
  forall location budget_max bedrooms property_type,
  exists p1 p2,
    candidate_price
      (search_results location budget_max bedrooms property_type) 0
    = Some (VInt p1)
    /\ candidate_price
         (search_results location budget_max bedrooms property_type) 1
       = Some (VInt p2)
    /\ if truthy (of_option_Z budget_max)
       then p1 = or_Z budget_max 0 /\ p2 = p1 - 200000
       else p1 = 1500000 /\ p2 = 800000.
Proof.
  intros location budget_max bedrooms property_type.
  exists (or_Z budget_max 1500000), (or_Z budget_max 1000000 - 200000).
  split; [reflexivity |]. split; [reflexivity |].
  destruct budget_max as [b |]; simpl; [| split; reflexivity].
  destruct (b =? 0); simpl; split; reflexivity.
Qed.

(** *** remember_preference *)

(** C6 (evaluation of the code). Called with the context the framework
    passes, [remember_preference] with the category ["suburb"] raises
    [AttributeError] for the preference [Bondi, NSW] and for the preference
    [Bondi]: the read of [context.session.chat_context] fails before the
    preference is split, no request is posted, and no metadata with
    [suburbName] and [state] is stored. *)
Theorem remember_preference_raises_before_split :
  remember_preference Sample.backend_ok Sample.agent
                      (mkRunContext livekit_session)
                      "suburb" "Bondi, NSW" true Sample.start
  = (Raises AttributeError, Sample.start)
  /\ remember_preference Sample.backend_ok Sample.agent
                         (mkRunContext livekit_session)
                         "suburb" "Bondi" true Sample.start
     = (Raises AttributeError, Sample.start)
  /\ sent Sample.start = [].
Proof. split; [| split]; reflexivity. Qed.

(** C7 (evaluation of the code). Called with the context the framework
    passes and a memory service that acknowledges every request,
    [remember_preference] raises [AttributeError] whether [is_positive] is
    true or false: [store_preference] is not called, so no confidence is
    passed to it, and no confirmation is returned. *)
Theorem remember_preference_raises_before_store :
  forall is_positive,
    remember_preference Sample.backend_ok Sample.agent
                        (mkRunContext livekit_session)
                        "price" "under 2 million" is_positive Sample.start
    = (Raises AttributeError, mkState [] []).
Proof. intros is_positive. reflexivity. Qed.

(** C9 (evaluation of the code). Called with the context the framework
    passes and a memory service that answers 500, [remember_preference]
    raises [AttributeError]: it does not return the soft degradation
    message. *)
Theorem remember_preference_raises_instead_of_degrading :
  fst (remember_preference Sample.backend_down Sample.agent
                           (mkRunContext livekit_session)
                           "price" "under 2 million" false Sample.start)
  = Raises AttributeError
  /\ fst (remember_preference Sample.backend_down Sample.agent
                              (mkRunContext livekit_session)
                              "price" "under 2 million" false Sample.start)
     <> Returns soft_degradation.
Proof. split; [reflexivity | discriminate]. Qed.

(** *** get_property_details *)

(** C8. Unless the task is cancelled while the view is being remembered,
    [get_property_details] of [prop-001] returns the text that holds the
    address, the price as [1,500,000] and the first three features joined by
    a comma and a space, the fourth feature left out.  For an identifier that
    is not in the table it returns the apology that names the identifier and
    posts nothing: the requests sent are those sent before. *)
Theorem get_property_details_found_and_unknown :
  forall backend json_dumps format_float repr_container self st unknown_id,
    (forall h rq, cancelled (backend h rq) = false) ->
    unknown_id <> "prop-001" ->
    unknown_id <> "prop-002" ->
    (exists details st',
        get_property_details backend json_dumps format_float repr_container
                             self "prop-001" st = (Returns details, st')
        /\ PyStr.contains "42 Ocean Street, Bondi Beach NSW 2026" details = true
        /\ PyStr.contains "Price: $1,500,000" details = true
        /\ PyStr.contains
             ("Features: Ocean views, Modern kitchen, Air conditioning"
              ++ newline) details = true
        /\ PyStr.contains "Close to beach" details = false)
    /\ (exists apology,
           get_property_details backend json_dumps format_float repr_container
                                self unknown_id st = (Returns apology, st)
           /\ apology = "Sorry, I couldn't find details for property "
                        ++ unknown_id ++ "."
           /\ PyStr.contains unknown_id apology = true).
Proof.
  intros backend jd ff rc self st pid Hlive H1 H2. split.
  - unfold get_property_details. unfold bind at 1.
    change (get properties "prop-001" VNone st) with (ret prop_001 st).
    cbn [ret prop_001 truthy negb].
    unfold bind at 1.
    match goal with
    | |- context [remember_conversation ?b ?c ?u ?q ?a ?p ?x ?s] =>
        destruct (remember_conversation_returns b c u q a p x s Hlive)
          as (v & st' & ->)
    end.
    eexists _, st'. split; [reflexivity |].
    repeat split; vm_compute; reflexivity.
  - eexists. split; [| split; [reflexivity |]].
    + unfold get_property_details, get, properties. cbn [dict_lookup].
      apply String.eqb_neq in H1, H2. rewrite H1, H2. reflexivity.
    + apply contains_append.
Qed.

Lemma get_property_details_found_and_unknown_witness :
  (exists details st',
      get_property_details Sample.backend_ok Sample.json_dumps
                           Sample.format_float Sample.repr_container
                           Sample.agent "prop-001" Sample.start
      = (Returns details, st')
      /\ PyStr.contains "42 Ocean Street, Bondi Beach NSW 2026" details = true
      /\ PyStr.contains "Price: $1,500,000" details = true
      /\ PyStr.contains
           ("Features: Ocean views, Modern kitchen, Air conditioning"
            ++ newline) details = true
      /\ PyStr.contains "Close to beach" details = false)
  /\ (exists apology,
         get_property_details Sample.backend_ok Sample.json_dumps
                              Sample.format_float Sample.repr_container
                              Sample.agent "unknown-id" Sample.start
         = (Returns apology, Sample.start)
         /\ apology = "Sorry, I couldn't find details for property "
                      ++ "unknown-id" ++ "."
         /\ PyStr.contains "unknown-id" apology = true).
Proof.
  apply (get_property_details_found_and_unknown
           Sample.backend_ok Sample.json_dumps Sample.format_float
           Sample.repr_container Sample.agent Sample.start "unknown-id").
  - intros h rq. reflexivity.
  - discriminate.
  - discriminate.
Defined.

(** *** Identity resolution *)

(** C10. When the job metadata is a JSON object whose [userId] is the empty
    string, the resolved identity is the room name if that is a non-empty
    string, and ["anonymous"] if the room name is empty or absent. *)
Theorem resolve_user_id_skips_empty_user :
  forall json_loads metadata d room_name st,
    metadata <> EmptyString ->
    json_loads metadata = Returns (VDict d) ->
    dict_lookup "userId" d = Some (VStr EmptyString) ->
    resolve_user_id json_loads metadata room_name st
    = (Returns (VStr match room_name with
                     | Some (String c rest) => String c rest
                     | Some EmptyString | None => "anonymous"
                     end), st).
Proof.
  intros jl metadata d room st Hne Hjson Hd.
  unfold resolve_user_id.
  replace (truthy (VStr metadata)) with true
    by (destruct metadata; [contradiction | reflexivity]).
  unfold bind at 1. rewrite Hjson. unfold bind at 1. unfold get.
  rewrite Hd. unfold ret.
  destruct room as [[| c rest] |]; reflexivity.
Qed.

Lemma resolve_user_id_skips_empty_user_witness :
  resolve_user_id Sample.json_loads Sample.blank_user (Some "room42")
                  Sample.start
  = (Returns (VStr "room42"), Sample.start)
  /\ resolve_user_id Sample.json_loads Sample.blank_user (Some EmptyString)
                     Sample.start
     = (Returns (VStr "anonymous"), Sample.start)
  /\ resolve_user_id Sample.json_loads Sample.blank_user None Sample.start
     = (Returns (VStr "anonymous"), Sample.start).
Proof.
  split; [| split];
    apply (resolve_user_id_skips_empty_user
             Sample.json_loads Sample.blank_user
             [("userId", VStr EmptyString)]);
    first [discriminate | reflexivity].
Defined.

(** ** Further properties of the memory client *)

Section ClientReplies.

Variable backend : list Request -> Request -> Reply.

(** The three writing calls share one shape: post, check the status, read
    one field of the body, and turn every [Exception] into a default. *)
Ltac run_call rq :=
  unfold try_except, bind, post; fold rq;
  unfold raise_for_status, response_json.

Lemma ensure_memory_space_run self uid st :
  ensure_memory_space backend self uid st
  = (match backend (sent st) (ensure_request self uid) with
     | PostRaises e => if is_Exception e then Returns VNone else Raises e
     | PostReturns r =>
         if is_success r
         then match body r with
              | Some v => Returns (field "memorySpaceId" v)
              | None => Returns VNone
              end
         else Returns VNone
     end,
     mkState (sent st ++ [ensure_request self uid]) (turn_ctx st)).
Proof.
  unfold ensure_memory_space. run_call (ensure_request self uid).
  destruct (backend (sent st) (ensure_request self uid)) as [e | r].
  - destruct (is_Exception e); reflexivity.
  - unfold is_success.
    destruct ((200 <=? status_code r) && (status_code r <? 300)); simpl;
      [| reflexivity].
    destruct (body r) as [v |]; simpl; [| reflexivity].
    destruct v; simpl; try reflexivity.
    destruct (dict_lookup "memorySpaceId" entries); reflexivity.
Qed.

Lemma remember_conversation_run self uid uq ar pid pctx st :
  remember_conversation backend self uid uq ar pid pctx st
  = (match backend (sent st) (remember_request self uid uq ar pid pctx) with
     | PostRaises e => if is_Exception e then Returns (VBool false) else Raises e
     | PostReturns r =>
         if is_success r
         then match body r with
              | Some (VDict d) =>
                  Returns match dict_lookup "success" d with
                          | Some x => x
                          | None => VBool false
                          end
              | _ => Returns (VBool false)
              end
         else Returns (VBool false)
     end,
     mkState (sent st ++ [remember_request self uid uq ar pid pctx])
             (turn_ctx st)).
Proof.
  unfold remember_conversation.
  run_call (remember_request self uid uq ar pid pctx).
  destruct (backend (sent st) (remember_request self uid uq ar pid pctx))
    as [e | r].
  - destruct (is_Exception e); reflexivity.
  - unfold is_success.
    destruct ((200 <=? status_code r) && (status_code r <? 300)); simpl;
      [| reflexivity].
    destruct (body r) as [v |]; simpl; [| reflexivity].
    destruct v; simpl; try reflexivity.
    destruct (dict_lookup "success" entries); reflexivity.
Qed.

Lemma store_preference_run self uid cat pref conf md st :
  store_preference backend self uid cat pref conf md st
  = (match backend (sent st) (store_request self uid cat pref conf md) with
     | PostRaises e => if is_Exception e then Returns (VBool false) else Raises e
     | PostReturns r =>
         if is_success r
         then match body r with
              | Some (VDict d) =>
                  Returns match dict_lookup "success" d with
                          | Some x => x
                          | None => VBool false
                          end
              | _ => Returns (VBool false)
              end
         else Returns (VBool false)
     end,
     mkState (sent st ++ [store_request self uid cat pref conf md])
             (turn_ctx st)).
Proof.
  unfold store_preference.
  run_call (store_request self uid cat pref conf md).
  destruct (backend (sent st) (store_request self uid cat pref conf md))
    as [e | r].
  - destruct (is_Exception e); reflexivity.
  - unfold is_success.
    destruct ((200 <=? status_code r) && (status_code r <? 300)); simpl;
      [| reflexivity].
    destruct (body r) as [v |]; simpl; [| reflexivity].
    destruct v; simpl; try reflexivity.
    destruct (dict_lookup "success" entries); reflexivity.
Qed.

Lemma recall_context_run self uid q limit st :
  recall_context backend self uid q limit st
  = (match backend (sent st) (recall_request self uid q limit) with
     | PostRaises e => if is_Exception e then Returns empty_recall else Raises e
     | PostReturns r =>
         if is_success r
         then match body r with
              | Some v => Returns v
              | None => Returns empty_recall
              end
         else Returns empty_recall
     end,
     mkState (sent st ++ [recall_request self uid q limit]) (turn_ctx st)).
Proof.
  unfold recall_context. run_call (recall_request self uid q limit).
  destruct (backend (sent st) (recall_request self uid q limit)) as [e | r].
  - destruct (is_Exception e); reflexivity.
  - unfold is_success.
    destruct ((200 <=? status_code r) && (status_code r <? 300)); simpl;
      [| reflexivity].
    destruct (body r) as [v |]; reflexivity.
Qed.

End ClientReplies.

Lemma service_failure_cases (r : Reply) :
  service_failure r = true ->
  r = PostRaises TransportError
  \/ exists resp, r = PostReturns resp
                  /\ (is_success resp = false \/ body resp = None).
Proof.
  destruct r as [e | resp]; simpl.
  - destruct e; try discriminate. now left.
  - intros H. right. exists resp. split; [reflexivity |].
    apply orb_true_iff in H as [H | H].
    + left. now apply negb_true_iff.
    + right. now destruct (body resp).
Qed.

(** X1. When the call of the memory service fails, [ensure_memory_space]
    raises nothing and returns [None], having posted its one request. *)
Theorem ensure_memory_space_none_on_failure :
  forall backend self uid st,
    service_failure (backend (sent st) (ensure_request self uid)) = true ->
    ensure_memory_space backend self uid st
    = (Returns VNone,
       mkState (sent st ++ [ensure_request self uid]) (turn_ctx st)).
Proof.
  intros backend self uid st H. rewrite ensure_memory_space_run.
  destruct (service_failure_cases _ H) as [-> | (resp & -> & [Hs | Hb])].
  - reflexivity.
  - now rewrite Hs.
  - rewrite Hb. now destruct (is_success resp).
Qed.

Lemma ensure_memory_space_none_on_failure_witness :
  ensure_memory_space Sample.backend_down (convex Sample.agent) "u1"
                      Sample.start
  = (Returns VNone,
     mkState (sent Sample.start ++ [ensure_request (convex Sample.agent) "u1"])
             (turn_ctx Sample.start)).
Proof.
  apply (ensure_memory_space_none_on_failure
           Sample.backend_down (convex Sample.agent) "u1" Sample.start).
  reflexivity.
Defined.

(** X2. On a 2xx reply with a JSON body, [ensure_memory_space] returns the
    [memorySpaceId] of the body, and [None] when the body is not an object
    or has no such key. *)
Theorem ensure_memory_space_returns_id :
  forall backend self uid st v,
    replies_with v (backend (sent st) (ensure_request self uid)) ->
    fst (ensure_memory_space backend self uid st)
    = Returns match v with
              | VDict d => match dict_lookup "memorySpaceId" d with
                           | Some id => id
                           | None => VNone
                           end
              | _ => VNone
              end.
Proof.
  intros backend self uid st v (code & Hr & Hs).
  rewrite ensure_memory_space_run, Hr, Hs. reflexivity.
Qed.

Lemma ensure_memory_space_returns_id_witness :
  fst (ensure_memory_space
         (fun _ _ => PostReturns
                       (mkResponse 200
                          (Some (VDict [("memorySpaceId", VStr "space-7")]))))
         (convex Sample.agent) "u1" Sample.start)
  = Returns (VStr "space-7").
Proof.
  apply (ensure_memory_space_returns_id
           (fun _ _ => PostReturns
                         (mkResponse 200
                            (Some (VDict [("memorySpaceId", VStr "space-7")]))))
           (convex Sample.agent) "u1" Sample.start
           (VDict [("memorySpaceId", VStr "space-7")])).
  exists 200. split; reflexivity.
Defined.

(** X3. [remember_conversation] returns [False], and raises nothing, when the
    call fails and also when a 2xx reply has a JSON body that is not an
    object or is an object without [success]. *)
Theorem remember_conversation_false_on_failure :
  forall backend self uid uq ar pid pctx st,
    (service_failure
       (backend (sent st) (remember_request self uid uq ar pid pctx)) = true
     \/ exists v,
         replies_with v
           (backend (sent st) (remember_request self uid uq ar pid pctx))
         /\ forall d, v = VDict d -> dict_lookup "success" d = None) ->
    remember_conversation backend self uid uq ar pid pctx st
    = (Returns (VBool false),
       mkState (sent st ++ [remember_request self uid uq ar pid pctx])
               (turn_ctx st)).
Proof.
  intros backend self uid uq ar pid pctx st H.
  rewrite remember_conversation_run. destruct H as [H | (v & (code & Hr & Hs) & Hv)].
  - destruct (service_failure_cases _ H) as [-> | (resp & -> & [Hs | Hb])].
    + reflexivity.
    + now rewrite Hs.
    + rewrite Hb. now destruct (is_success resp).
  - rewrite Hr, Hs. cbn [body].
    destruct v; try reflexivity. now rewrite (Hv _ eq_refl).
Qed.

Lemma remember_conversation_false_on_failure_witness :
  remember_conversation Sample.backend_down (convex Sample.agent) "u1"
                        "Get details for prop-001" "{}" (VStr "prop-001")
                        VNone Sample.start
  = (Returns (VBool false),
     mkState (sent Sample.start
              ++ [remember_request (convex Sample.agent) "u1"
                    "Get details for prop-001" "{}" (VStr "prop-001") VNone])
             (turn_ctx Sample.start)).
Proof.
  apply (remember_conversation_false_on_failure
           Sample.backend_down (convex Sample.agent) "u1"
           "Get details for prop-001" "{}" (VStr "prop-001") VNone
           Sample.start).
  left. reflexivity.
Defined.

(** X4. Whatever the category, the preference, [is_positive] and the
    memory service, [remember_preference] called with a context whose
    session defines no [chat_context] raises [AttributeError] before it
    posts anything: the state is as it was. *)
Theorem remember_preference_needs_chat_context :
  forall backend self context category preference is_positive st,
    chat_context (session context) = None ->
    remember_preference backend self context category preference
                        is_positive st
    = (Raises AttributeError, st).
Proof.
  intros backend self context category preference is_positive st H.
  unfold remember_preference, preference_metadata, read_chat_context.
  rewrite H. reflexivity.
Qed.

Lemma remember_preference_needs_chat_context_witness :
  remember_preference Sample.backend_ok Sample.agent
                      (mkRunContext livekit_session)
                      "property_type" "apartment" true Sample.start
  = (Raises AttributeError, Sample.start).
Proof.
  apply (remember_preference_needs_chat_context
           Sample.backend_ok Sample.agent (mkRunContext livekit_session)
           "property_type" "apartment" true Sample.start).
  reflexivity.
Defined.

(** ** Further properties of the mediator *)

Lemma bind_run {A B} (m : M A) (k : A -> M B) (st : State) :
  bind m k st
  = match fst (m st) with
    | Returns a => k a (snd (m st))
    | Raises e => (Raises e, snd (m st))
    end.
Proof. unfold bind. now destruct (m st) as [[a | e] st1]. Qed.

Lemma state_same (st : State) :
  mkState (sent st) (turn_ctx st ++ []) = st.
Proof. rewrite app_nil_r. now destruct st. Qed.

Section Preserves.

Context {X : Type}.
Variable f : State -> X.

Lemma preserves_ret {A} (a : A) : preserves f (ret a).
Proof. intros st o st' H. now inversion H. Qed.

Lemma preserves_raise {A} (e : exn) : preserves f (@raise A e).
Proof. intros st o st' H. now inversion H. Qed.

Lemma preserves_bind {A B} (m : M A) (k : A -> M B) :
  preserves f m -> (forall a, preserves f (k a)) -> preserves f (bind m k).
Proof.
  intros Hm Hk st o st' H. unfold bind in H.
  destruct (m st) as [[a | e] st1] eqn:E.
  - rewrite (Hk a _ _ _ H). exact (Hm _ _ _ E).
  - inversion H; subst. exact (Hm _ _ _ E).
Qed.

Lemma preserves_if {A} (b : bool) (m1 m2 : M A) :
  preserves f m1 -> preserves f m2 -> preserves f (if b then m1 else m2).
Proof. destruct b; auto. Qed.

Lemma preserves_forM_ {A} (g : A -> M unit) (l : list A) :
  (forall x, preserves f (g x)) -> preserves f (forM_ g l).
Proof.
  intros Hg. induction l as [| x l IH]; simpl.
  - apply preserves_ret.
  - apply preserves_bind; [apply Hg | intros _; exact IH].
Qed.

Lemma preserves_mapM {A B} (g : A -> M B) (l : list A) :
  (forall x, preserves f (g x)) -> preserves f (mapM g l).
Proof.
  intros Hg. induction l as [| x l IH]; simpl.
  - apply preserves_ret.
  - apply preserves_bind; [apply Hg | intros y].
    apply preserves_bind; [exact IH | intros ys; apply preserves_ret].
Qed.

Lemma preserves_subscript v k : preserves f (subscript v k).
Proof.
  unfold subscript. destruct v; try apply preserves_raise.
  destruct (dict_lookup k entries); [apply preserves_ret | apply preserves_raise].
Qed.

Lemma preserves_get v k dflt : preserves f (get v k dflt).
Proof.
  unfold get. destruct v; try apply preserves_raise.
  destruct (dict_lookup k entries); apply preserves_ret.
Qed.

Lemma preserves_slice_to n v : preserves f (slice_to n v).
Proof.
  unfold slice_to. destruct v; first [apply preserves_ret | apply preserves_raise].
Qed.

Lemma preserves_iter v : preserves f (iter v).
Proof.
  unfold iter. destruct v; first [apply preserves_ret | apply preserves_raise].
Qed.

End Preserves.

Lemma preserves_add_message r content : preserves sent (add_message r content).
Proof. intros st o st' H. now inversion H. Qed.

Ltac preserves_step :=
  first [ apply preserves_bind; [| intro]
        | apply preserves_if
        | apply preserves_forM_; intro
        | apply preserves_mapM; intro
        | apply preserves_ret
        | apply preserves_raise
        | apply preserves_subscript
        | apply preserves_get
        | apply preserves_slice_to
        | apply preserves_iter
        | apply preserves_add_message ].

Section Bounded.

Lemma bounded_pure {A} (m : M A) :
  preserves turn_ctx m -> bounded (fun _ => True) 0 m.
Proof.
  intros Hm st o st' H. split; [| now destruct o].
  exists []. rewrite app_nil_r. split; [exact (Hm _ _ _ H) | simpl; lia].
Qed.

Lemma bounded_weaken {A} (Q Q' : A -> Prop) (n n' : nat) (m : M A) :
  bounded Q n m -> (n <= n')%nat -> (forall a, Q a -> Q' a) ->
  bounded Q' n' m.
Proof.
  intros Hm Hn HQ st o st' H.
  destruct (Hm _ _ _ H) as ((extra & E & L) & Ho). split.
  - exists extra. split; [exact E | lia].
  - destruct o; [now apply HQ | exact I].
Qed.

Lemma bounded_bind {A B} (Q : A -> Prop) (R : B -> Prop) (n1 n2 n : nat)
      (m : M A) (k : A -> M B) :
  bounded Q n1 m -> (forall a, Q a -> bounded R n2 (k a)) ->
  (n1 + n2 <= n)%nat -> bounded R n (bind m k).
Proof.
  intros Hm Hk Hn st o st' H. unfold bind in H.
  destruct (m st) as [[a | e] st1] eqn:E.
  - destruct (Hm _ _ _ E) as ((x1 & E1 & L1) & Ha).
    destruct (Hk a Ha _ _ _ H) as ((x2 & E2 & L2) & Ho).
    split; [| exact Ho]. exists (x1 ++ x2)%list. split.
    + now rewrite E2, E1, app_assoc.
    + rewrite length_app. lia.
  - inversion H; subst.
    destruct (Hm _ _ _ E) as ((x1 & E1 & L1) & _). split; [| exact I].
    exists x1. split; [exact E1 | lia].
Qed.

Lemma bounded_forM_ {A} (g : A -> M unit) (l : list A) :
  (forall x, bounded (fun _ => True) 1 (g x)) ->
  bounded (fun _ => True) (List.length l) (forM_ g l).
Proof.
  intros Hg. induction l as [| x l IH]; simpl.
  - apply bounded_pure, preserves_ret.
  - apply (bounded_bind (fun _ => True) _ 1 (List.length l));
      [apply Hg | intros _ _; exact IH | lia].
Qed.

Lemma bounded_add_message r content :
  bounded (fun _ => True) 1 (add_message r content).
Proof.
  intros st o st' H. inversion H; subst. simpl. split; [| exact I].
  eexists. split; [reflexivity | simpl; lia].
Qed.

Lemma substring_short (n : nat) (s : string) :
  (String.length (substring 0 n s) <= n)%nat.
Proof.
  revert s. induction n as [| n IH]; intros [| c s]; simpl; try lia.
  specialize (IH s). lia.
Qed.

Lemma length_list_ascii (s : string) :
  List.length (list_ascii_of_string s) = String.length s.
Proof. induction s as [| c s IH]; simpl; [reflexivity | now rewrite IH]. Qed.

(** A slice [v[:n]] has at most [n] items, and a loop over it at most [n]
    rounds. *)
Lemma bounded_slice_to n v : bounded (short n) 0 (slice_to n v).
Proof.
  intros st o st' H. unfold slice_to in H. split.
  - exists []. rewrite app_nil_r. split; [| simpl; lia].
    destruct v; now inversion H.
  - destruct v; inversion H; subst; simpl; try exact I.
    + apply substring_short.
    + rewrite length_firstn. lia.
Qed.

Lemma bounded_iter n v :
  short n v -> bounded (fun l => (List.length l <= n)%nat) 0 (iter v).
Proof.
  intros Hv st o st' H. unfold iter in H. split.
  - exists []. rewrite app_nil_r. split; [| simpl; lia].
    destruct v; now inversion H.
  - destruct v; inversion H; subst; simpl in *; try exact I.
    + now rewrite length_map, length_list_ascii.
    + exact Hv.
    + now rewrite length_map.
Qed.

End Bounded.

Section MediatorBounds.

Variable format_float : string -> float -> string.
Variable repr_container : value -> string.

Ltac pure_step := apply bounded_pure; repeat preserves_step.

Lemma bounded_inject_suburb_preferences context :
  bounded (fun _ => True) 1
          (inject_suburb_preferences format_float repr_container context).
Proof.
  unfold inject_suburb_preferences.
  apply (bounded_bind (fun _ => True) _ 0 1); [pure_step | intros present _ | lia].
  destruct (truthy present);
    [| apply (bounded_weaken (fun _ => True) _ 0); [pure_step | lia | auto]].
  apply (bounded_bind (fun _ => True) _ 0 1); [pure_step | intros all _ | lia].
  apply (bounded_bind (fun _ => True) _ 0 1); [pure_step | intros prefs _ | lia].
  apply (bounded_bind (fun _ => True) _ 0 1); [pure_step | intros items _ | lia].
  apply (bounded_bind (fun _ => True) _ 0 1); [pure_step | intros parts _ | lia].
  apply bounded_add_message.
Qed.

Lemma bounded_inject_facts context :
  bounded (fun _ => True) 5
          (inject_facts format_float repr_container context).
Proof.
  unfold inject_facts.
  apply (bounded_bind (fun _ => True) _ 0 5); [pure_step | intros present _ | lia].
  destruct (truthy present);
    [| apply (bounded_weaken (fun _ => True) _ 0); [pure_step | lia | auto]].
  apply (bounded_bind (fun _ => True) _ 0 5); [pure_step | intros all _ | lia].
  apply (bounded_bind (short 5) _ 0 5);
    [apply bounded_slice_to | intros facts Hfacts | lia].
  apply (bounded_bind (fun l => (List.length l <= 5)%nat) _ 0 5);
    [now apply bounded_iter | intros items Hitems | lia].
  apply (bounded_weaken (fun _ => True) _ (List.length items));
    [| exact Hitems | auto].
  apply bounded_forM_. intros fact.
  apply (bounded_bind (fun _ => True) _ 0 1); [pure_step | intros text _ | lia].
  apply (bounded_bind (fun _ => True) _ 0 1); [pure_step | intros c _ | lia].
  apply bounded_add_message.
Qed.

Lemma bounded_inject_property_interactions context :
  bounded (fun _ => True) 3
          (inject_property_interactions format_float repr_container context).
Proof.
  unfold inject_property_interactions.
  apply (bounded_bind (fun _ => True) _ 0 3); [pure_step | intros present _ | lia].
  destruct (truthy present);
    [| apply (bounded_weaken (fun _ => True) _ 0); [pure_step | lia | auto]].
  apply (bounded_bind (fun _ => True) _ 0 3); [pure_step | intros all _ | lia].
  apply (bounded_bind (short 3) _ 0 3);
    [apply bounded_slice_to | intros seen Hseen | lia].
  apply (bounded_bind (fun l => (List.length l <= 3)%nat) _ 0 3);
    [now apply bounded_iter | intros items Hitems | lia].
  apply (bounded_weaken (fun _ => True) _ (List.length items));
    [| exact Hitems | auto].
  apply bounded_forM_. intros interaction.
  apply (bounded_bind (fun _ => True) _ 0 1); [pure_step | intros pid _ | lia].
  apply (bounded_bind (fun _ => True) _ 0 1); [pure_step | intros kind _ | lia].
  apply bounded_add_message.
Qed.

Lemma preserves_sent_injections context :
  preserves sent
    (inject_suburb_preferences format_float repr_container context ;;;
     inject_facts format_float repr_container context ;;;
     inject_property_interactions format_float repr_container context).
Proof.
  unfold inject_suburb_preferences, inject_facts,
    inject_property_interactions.
  repeat preserves_step.
Qed.

Lemma bounded_injections context :
  bounded (fun _ => True) 9
    (inject_suburb_preferences format_float repr_container context ;;;
     inject_facts format_float repr_container context ;;;
     inject_property_interactions format_float repr_container context).
Proof.
  apply (bounded_bind (fun _ => True) _ 1 8);
    [apply bounded_inject_suburb_preferences | intros _ _ | lia].
  apply (bounded_bind (fun _ => True) _ 5 3);
    [apply bounded_inject_facts | intros _ _ | lia].
  apply bounded_inject_property_interactions.
Qed.

Lemma appends_assistant_injections context :
  appends (fun m => role m = "assistant")
    (inject_suburb_preferences format_float repr_container context ;;;
     inject_facts format_float repr_container context ;;;
     inject_property_interactions format_float repr_container context).
Proof.
  unfold inject_suburb_preferences, inject_facts,
    inject_property_interactions.
  repeat appends_step; now apply appends_add_message.
Qed.

End MediatorBounds.

(** X6. Whatever the memory service answers, one completed user turn leaves
    the messages of the turn context in place and adds at most nine
    messages after them (one for the suburbs, five for facts, three for
    property interactions), every one with the role [assistant]. *)
Theorem turn_adds_few_assistant_messages :
  forall backend format_float repr_container self new_message st,
  exists extra,
    turn_ctx (snd (on_user_turn_completed backend format_float repr_container
                                          self new_message st))
    = (turn_ctx st ++ extra)%list
    /\ (List.length extra <= 9)%nat
    /\ Forall (fun m => role m = "assistant") extra.
Proof.
  intros backend ff rc self new_message st.
  unfold on_user_turn_completed. rewrite bind_run.
  destruct (recall_context backend (convex self) (user_id self)
                           (text_or_empty new_message) 10 st)
    as [o st1] eqn:E.
  rewrite recall_context_run in E. injection E as _ <-. cbn [fst snd].
  destruct o as [context | e].
  - match goal with
    | |- context [snd (?m ?s)] => destruct (m s) as [o st'] eqn:Hrest
    end.
    destruct (bounded_injections ff rc context _ _ _ Hrest)
      as ((extra & E1 & L) & _).
    destruct (appends_assistant_injections ff rc context _ _ _ Hrest)
      as (extra' & E2 & F).
    rewrite E1 in E2. apply app_inv_head in E2. subst extra'.
    exists extra. cbn [snd]. auto.
  - exists []. cbn [snd turn_ctx].
    rewrite app_nil_r. split; [reflexivity |]. split; [simpl; lia | constructor].
Qed.

(** X7. One completed user turn posts exactly one request to the memory
    service, whatever it answers: the recall request for this user, with the
    text of the new message (the empty string when it has none) as the query
    and the limit 10. *)
Theorem turn_posts_one_recall_request :
  forall backend format_float repr_container self new_message st,
    sent (snd (on_user_turn_completed backend format_float repr_container
                                      self new_message st))
    = (sent st
       ++ [mkRequest (base_url (convex self) ++ "/api/cortex/recall")
             (VDict [("userId", VStr (user_id self));
                     ("query",
                      VStr match text_content new_message with
                           | Some s => s
                           | None => EmptyString
                           end);
                     ("limit", VInt 10)])])%list.
Proof.
  intros backend ff rc self new_message st.
  replace (match text_content new_message with
           | Some s => s
           | None => EmptyString
           end) with (text_or_empty new_message)
    by (unfold text_or_empty; now destruct (text_content new_message) as [[|]|]).
  fold (recall_request (convex self) (user_id self)
                       (text_or_empty new_message) 10).
  unfold on_user_turn_completed. rewrite bind_run.
  destruct (recall_context backend (convex self) (user_id self)
                           (text_or_empty new_message) 10 st)
    as [o st1] eqn:E.
  rewrite recall_context_run in E. injection E as _ <-. cbn [fst snd].
  destruct o as [context | e]; [| reflexivity].
  match goal with
  | |- context [snd (?m ?s)] => destruct (m s) as [o st'] eqn:Hrest
  end.
  exact (preserves_sent_injections ff rc context _ _ _ Hrest).
Qed.

(** X8. When the recall call fails (the transport raises, the status is not
    2xx, or the body is not a JSON document), the completed turn returns
    normally and leaves the turn context exactly as it was. *)
Theorem turn_survives_service_failure :
  forall backend format_float repr_container self new_message st,
    service_failure
      (backend (sent st)
               (recall_request (convex self) (user_id self)
                               (text_or_empty new_message) 10)) = true ->
    on_user_turn_completed backend format_float repr_container self
                           new_message st
    = (Returns tt,
       mkState (sent st
                ++ [recall_request (convex self) (user_id self)
                                   (text_or_empty new_message) 10])
               (turn_ctx st)).
Proof.
  intros backend ff rc self new_message st H.
  unfold on_user_turn_completed. rewrite bind_run, recall_context_run.
  cbn [fst snd].
  assert (Hempty :
    match backend (sent st)
                  (recall_request (convex self) (user_id self)
                                  (text_or_empty new_message) 10) with
    | PostRaises e => if is_Exception e then Returns empty_recall else Raises e
    | PostReturns r =>
        if is_success r
        then match body r with
             | Some v => Returns v
             | None => Returns empty_recall
             end
        else Returns empty_recall
    end = Returns empty_recall).
  { destruct (service_failure_cases _ H) as [-> | (resp & -> & [Hs | Hb])].
    - reflexivity.
    - now rewrite Hs.
    - rewrite Hb. now destruct (is_success resp). }
  rewrite Hempty. reflexivity.
Qed.

Lemma turn_survives_service_failure_witness :
  on_user_turn_completed Sample.backend_down Sample.format_float
                         Sample.repr_container Sample.agent Sample.utterance
                         Sample.start
  = (Returns tt,
     mkState (sent Sample.start
              ++ [recall_request (convex Sample.agent) (user_id Sample.agent)
                                 (text_or_empty Sample.utterance) 10])
             (turn_ctx Sample.start)).
Proof.
  apply (turn_survives_service_failure
           Sample.backend_down Sample.format_float Sample.repr_container
           Sample.agent Sample.utterance Sample.start).
  reflexivity.
Defined.

Section InjectionExact.

Variable format_float : string -> float -> string.
Variable repr_container : value -> string.

Lemma interaction_messages (items : list value) (st : State) :
  forallb (has_keys ["propertyId"; "interactionType"]) items = true ->
  forM_ (fun interaction =>
           pid <- subscript interaction "propertyId" ;;
           kind <- subscript interaction "interactionType" ;;
           add_message "assistant"
                       ("User recently viewed: "
                        ++ str format_float repr_container pid ++ " ("
                        ++ str format_float repr_container kind ++ ")"))
        items st
  = (Returns tt,
     mkState (sent st)
             (turn_ctx st
              ++ map (interaction_message format_float repr_container) items)).
Proof.
  revert st. induction items as [| p items IH]; intros st H.
  - simpl. unfold ret. now rewrite state_same.
  - cbn [forallb] in H. apply andb_prop in H as [Hp Hr].
    apply has_keys_pair in Hp as [H1 H2].
    cbn [forM_ map]. unfold bind at 1 2 3.
    rewrite (subscript_present _ _ _ H1), (subscript_present _ _ _ H2).
    unfold add_message at 1. rewrite (IH _ Hr). simpl.
    now rewrite <- app_assoc.
Qed.

Lemma inject_property_interactions_listed d seen st :
  dict_lookup "propertyInteractions" d = Some (VList seen) ->
  seen <> [] ->
  forallb (has_keys ["propertyId"; "interactionType"]) (firstn 3 seen) = true ->
  inject_property_interactions format_float repr_container (VDict d) st
  = (Returns tt,
     mkState (sent st)
             (turn_ctx st
              ++ map (interaction_message format_float repr_container)
                     (firstn 3 seen))).
Proof.
  intros Hd Hne Hwf. unfold inject_property_interactions, get, subscript.
  rewrite Hd. unfold bind at 1. unfold ret at 1.
  replace (truthy (VList seen)) with true
    by (destruct seen; [contradiction | reflexivity]).
  unfold bind at 1. unfold ret at 1.
  unfold bind at 1. unfold slice_to, ret at 1.
  unfold bind at 1. unfold iter, ret at 1.
  apply (interaction_messages _ _ Hwf).
Qed.

(** A step whose field is absent or falsy adds nothing. *)
Lemma listed_falsy n key d v :
  dict_lookup key d = Some v -> truthy v = false -> listed n key d = [].
Proof.
  intros Hd Ht. unfold listed. rewrite Hd.
  destruct v as [| | | | | l |]; try reflexivity.
  destruct l; [now destruct n | discriminate Ht].
Qed.

Lemma inject_suburb_preferences_exact d st :
  field_ok ["suburbName"; "preferenceScore"] 5 "suburbPreferences" d = true ->
  inject_suburb_preferences format_float repr_container (VDict d) st
  = (Returns tt,
     mkState (sent st)
             (turn_ctx st
              ++ match listed 5 "suburbPreferences" d with
                 | [] => []
                 | (_ :: _) as prefs =>
                     [suburb_message format_float repr_container prefs]
                 end)).
Proof.
  unfold field_ok. intros H.
  destruct (dict_lookup "suburbPreferences" d) as [v |] eqn:Hd.
  - destruct (truthy v) eqn:Ht.
    + destruct v; try discriminate H.
      assert (Hne : items <> []) by (destruct items; discriminate).
      rewrite (inject_suburb_preferences_listed _ _ _ _ _ Hd Hne H).
      unfold listed. rewrite Hd.
      destruct items as [| x items]; [contradiction | reflexivity].
    + rewrite (listed_falsy _ _ _ _ Hd Ht), state_same.
      unfold inject_suburb_preferences, get. rewrite Hd.
      unfold bind, ret. now rewrite Ht.
  - unfold listed. rewrite Hd, state_same.
    unfold inject_suburb_preferences, get. now rewrite Hd.
Qed.

Lemma inject_facts_exact d st :
  field_ok ["fact"; "confidence"] 5 "facts" d = true ->
  inject_facts format_float repr_container (VDict d) st
  = (Returns tt,
     mkState (sent st)
             (turn_ctx st
              ++ map (fact_message format_float repr_container)
                     (listed 5 "facts" d))).
Proof.
  unfold field_ok. intros H.
  destruct (dict_lookup "facts" d) as [v |] eqn:Hd.
  - destruct (truthy v) eqn:Ht.
    + destruct v; try discriminate H.
      assert (Hne : items <> []) by (destruct items; discriminate).
      rewrite (inject_facts_listed _ _ _ _ _ Hd Hne H).
      unfold listed. now rewrite Hd.
    + rewrite (listed_falsy _ _ _ _ Hd Ht). cbn [map]. rewrite state_same.
      unfold inject_facts, get. rewrite Hd.
      unfold bind, ret. now rewrite Ht.
  - unfold listed. rewrite Hd. cbn [map]. rewrite state_same.
    unfold inject_facts, get. now rewrite Hd.
Qed.

Lemma inject_property_interactions_exact d st :
  field_ok ["propertyId"; "interactionType"] 3 "propertyInteractions" d = true ->
  inject_property_interactions format_float repr_container (VDict d) st
  = (Returns tt,
     mkState (sent st)
             (turn_ctx st
              ++ map (interaction_message format_float repr_container)
                     (listed 3 "propertyInteractions" d))).
Proof.
  unfold field_ok. intros H.
  destruct (dict_lookup "propertyInteractions" d) as [v |] eqn:Hd.
  - destruct (truthy v) eqn:Ht.
    + destruct v; try discriminate H.
      assert (Hne : items <> []) by (destruct items; discriminate).
      rewrite (inject_property_interactions_listed _ _ _ Hd Hne H).
      unfold listed. now rewrite Hd.
    + rewrite (listed_falsy _ _ _ _ Hd Ht). cbn [map]. rewrite state_same.
      unfold inject_property_interactions, get. rewrite Hd.
      unfold bind, ret. now rewrite Ht.
  - unfold listed. rewrite Hd. cbn [map]. rewrite state_same.
    unfold inject_property_interactions, get. now rewrite Hd.
Qed.

End InjectionExact.

(** X9. When the memory service answers the recall with a JSON object whose
    [suburbPreferences], [facts] and [propertyInteractions] are each absent,
    falsy, or a list of records with the keys the step reads, the completed
    turn returns normally and adds, in this order: one summary of the first
    five suburbs (if there is any), one message per fact for the first five
    facts, and one message [User recently viewed: id (type)] per property
    interaction for the first three. *)
Theorem turn_injects_recalled_context :
  forall backend format_float repr_container self new_message st d,
    replies_with (VDict d)
      (backend (sent st)
               (recall_request (convex self) (user_id self)
                               (text_or_empty new_message) 10)) ->
    field_ok ["suburbName"; "preferenceScore"] 5 "suburbPreferences" d = true ->
    field_ok ["fact"; "confidence"] 5 "facts" d = true ->
    field_ok ["propertyId"; "interactionType"] 3 "propertyInteractions" d
    = true ->
    on_user_turn_completed backend format_float repr_container self
                           new_message st
    = (Returns tt,
       mkState (sent st
                ++ [recall_request (convex self) (user_id self)
                                   (text_or_empty new_message) 10])
               (turn_ctx st
                ++ match listed 5 "suburbPreferences" d with
                   | [] => []
                   | (_ :: _) as prefs =>
                       [suburb_message format_float repr_container prefs]
                   end
                ++ map (fact_message format_float repr_container)
                       (listed 5 "facts" d)
                ++ map (fun interaction =>
                          mkChatMessage "assistant"
                            (Some ("User recently viewed: "
                                   ++ str format_float repr_container
                                          (field "propertyId" interaction)
                                   ++ " ("
                                   ++ str format_float repr_container
                                          (field "interactionType" interaction)
                                   ++ ")")%string))
                       (listed 3 "propertyInteractions" d))%list).
Proof.
  intros backend ff rc self new_message st d (code & Hr & Hs) H1 H2 H3.
  unfold on_user_turn_completed. rewrite bind_run, recall_context_run.
  rewrite Hr, Hs. cbn [fst snd body].
  rewrite bind_run, (inject_suburb_preferences_exact ff rc d _ H1).
  cbn [fst snd].
  rewrite bind_run, (inject_facts_exact ff rc d _ H2). cbn [fst snd].
  rewrite (inject_property_interactions_exact ff rc d _ H3).
  cbn [sent turn_ctx]. rewrite <- !app_assoc. reflexivity.
Qed.

Lemma turn_injects_recalled_context_witness :
  on_user_turn_completed
    (fun _ _ =>
       PostReturns
         (mkResponse 200
            (Some (VDict [("facts", VList []);
                          ("propertyInteractions",
                           VList [VDict [("propertyId", VStr "prop-001");
                                         ("interactionType", VStr "viewed")];
                                  VDict [("propertyId", VStr "prop-002");
                                         ("interactionType", VStr "saved")];
                                  VDict [("propertyId", VStr "prop-003");
                                         ("interactionType", VStr "viewed")];
                                  VDict [("propertyId", VStr "prop-004");
                                         ("interactionType", VStr "viewed")]])]))))
    Sample.format_float Sample.repr_container Sample.agent Sample.utterance
    Sample.start
  = (Returns tt,
     mkState [recall_request (convex Sample.agent) "u1"
                             "Anything near the beach?" 10]
             [mkChatMessage "assistant"
                (Some "User recently viewed: prop-001 (viewed)");
              mkChatMessage "assistant"
                (Some "User recently viewed: prop-002 (saved)");
              mkChatMessage "assistant"
                (Some "User recently viewed: prop-003 (viewed)")]).
Proof.
  apply (turn_injects_recalled_context
           (fun _ _ =>
              PostReturns
                (mkResponse 200
                   (Some (VDict [("facts", VList []);
                                 ("propertyInteractions",
                                  VList [VDict [("propertyId", VStr "prop-001");
                                                ("interactionType", VStr "viewed")];
                                         VDict [("propertyId", VStr "prop-002");
                                                ("interactionType", VStr "saved")];
                                         VDict [("propertyId", VStr "prop-003");
                                                ("interactionType", VStr "viewed")];
                                         VDict [("propertyId", VStr "prop-004");
                                                ("interactionType", VStr "viewed")]])]))))
           Sample.format_float Sample.repr_container Sample.agent
           Sample.utterance Sample.start
           [("facts", VList []);
            ("propertyInteractions",
             VList [VDict [("propertyId", VStr "prop-001");
                           ("interactionType", VStr "viewed")];
                    VDict [("propertyId", VStr "prop-002");
                           ("interactionType", VStr "saved")];
                    VDict [("propertyId", VStr "prop-003");
                           ("interactionType", VStr "viewed")];
                    VDict [("propertyId", VStr "prop-004");
                           ("interactionType", VStr "viewed")]])]).
  - exists 200. split; reflexivity.
  - reflexivity.
  - reflexivity.
  - reflexivity.
Defined.

(** X10. The mediator does not guard the shape of the recall result: when
    the memory service answers 2xx with a JSON document that is not an
    object, the completed turn raises [AttributeError] at the first
    [context.get], and the turn context is left as it was. *)
Theorem turn_raises_on_non_object :
  forall backend format_float repr_container self new_message st v,
    replies_with v
      (backend (sent st)
               (recall_request (convex self) (user_id self)
                               (text_or_empty new_message) 10)) ->
    (forall d, v <> VDict d) ->
    on_user_turn_completed backend format_float repr_container self
                           new_message st
    = (Raises AttributeError,
       mkState (sent st
                ++ [recall_request (convex self) (user_id self)
                                   (text_or_empty new_message) 10])
               (turn_ctx st)).
Proof.
  intros backend ff rc self new_message st v (code & Hr & Hs) Hv.
  unfold on_user_turn_completed. rewrite bind_run, recall_context_run.
  rewrite Hr, Hs. cbn [fst snd body].
  destruct v; try reflexivity. now elim (Hv entries).
Qed.

Lemma turn_raises_on_non_object_witness :
  on_user_turn_completed
    (fun _ _ => PostReturns (mkResponse 200 (Some (VList []))))
    Sample.format_float Sample.repr_container Sample.agent Sample.utterance
    Sample.start
  = (Raises AttributeError,
     mkState (sent Sample.start
              ++ [recall_request (convex Sample.agent) (user_id Sample.agent)
                                 (text_or_empty Sample.utterance) 10])
             (turn_ctx Sample.start)).
Proof.
  apply (turn_raises_on_non_object
           (fun _ _ => PostReturns (mkResponse 200 (Some (VList []))))
           Sample.format_float Sample.repr_container Sample.agent
           Sample.utterance Sample.start (VList [])).
  - exists 200. split; reflexivity.
  - discriminate.
Defined.

Section InjectionStops.

Variable format_float : string -> float -> string.
Variable repr_container : value -> string.

(** The loop over the facts stops at the first entry that is not a record
    with both keys; the messages of the entries before it are in place. *)
Lemma fact_messages_stop (good : list value) (bad : value)
      (rest : list value) (st : State) :
  forallb (has_keys ["fact"; "confidence"]) good = true ->
  has_keys ["fact"; "confidence"] bad = false ->
  forM_ (fun fact =>
           text <- subscript fact "fact" ;;
           confidence <- subscript fact "confidence" ;;
           add_message "assistant"
                       ("Remembered: " ++ str format_float repr_container text
                        ++ " (confidence: "
                        ++ str format_float repr_container confidence ++ "%)"))
        (good ++ bad :: rest)%list st
  = (Raises match bad with VDict _ => KeyError | _ => TypeError end,
     mkState (sent st)
             (turn_ctx st
              ++ map (fact_message format_float repr_container) good)).
Proof.
  revert st. induction good as [| p good IH]; intros st Hgood Hbad.
  - cbn [app forM_ map]. rewrite state_same.
    unfold bind, subscript.
    destruct bad as [| | | | | | entries]; try reflexivity.
    unfold has_keys in Hbad. cbn [forallb] in Hbad.
    destruct (dict_lookup "fact" entries); [| reflexivity].
    destruct (dict_lookup "confidence" entries); [discriminate Hbad |].
    reflexivity.
  - cbn [forallb] in Hgood. apply andb_prop in Hgood as [Hp Hr].
    apply has_keys_pair in Hp as [H1 H2].
    cbn [app forM_ map]. unfold bind at 1 2 3.
    rewrite (subscript_present _ _ _ H1), (subscript_present _ _ _ H2).
    unfold add_message at 1. rewrite (IH _ Hr Hbad). simpl.
    now rewrite <- app_assoc.
Qed.

Lemma inject_facts_stops d good bad rest st :
  dict_lookup "facts" d = Some (VList (good ++ bad :: rest)) ->
  (List.length good < 5)%nat ->
  forallb (has_keys ["fact"; "confidence"]) good = true ->
  has_keys ["fact"; "confidence"] bad = false ->
  inject_facts format_float repr_container (VDict d) st
  = (Raises match bad with VDict _ => KeyError | _ => TypeError end,
     mkState (sent st)
             (turn_ctx st
              ++ map (fact_message format_float repr_container) good)).
Proof.
  intros Hd Hlen Hgood Hbad. unfold inject_facts, get, subscript.
  rewrite Hd. unfold bind at 1. unfold ret at 1.
  replace (truthy (VList (good ++ bad :: rest))) with true
    by (destruct good; reflexivity).
  unfold bind at 1. unfold ret at 1.
  unfold bind at 1. unfold slice_to, ret at 1.
  unfold bind at 1. unfold iter, ret at 1.
  rewrite firstn_app, (firstn_all2 good) by lia.
  destruct (5 - List.length good)%nat as [| k] eqn:Hk; [lia |].
  cbn [firstn]. apply (fact_messages_stop _ _ _ _ Hgood Hbad).
Qed.

End InjectionStops.

(** X11. The injection of a turn is not all-or-nothing.  When one of the
    first five facts of the recall result is not a record with [fact] and
    [confidence], the completed turn raises ([KeyError] for a record without
    the key, [TypeError] for an entry that is no record) after it has added
    the suburb summary and the messages of the facts before that entry;
    nothing is added for the later facts or for the property
    interactions. *)
Theorem turn_stops_at_malformed_fact :
  forall backend format_float repr_container self new_message st d
         good bad rest,
    replies_with (VDict d)
      (backend (sent st)
               (recall_request (convex self) (user_id self)
                               (text_or_empty new_message) 10)) ->
    field_ok ["suburbName"; "preferenceScore"] 5 "suburbPreferences" d = true ->
    dict_lookup "facts" d = Some (VList (good ++ bad :: rest)) ->
    (List.length good < 5)%nat ->
    forallb (has_keys ["fact"; "confidence"]) good = true ->
    has_keys ["fact"; "confidence"] bad = false ->
    on_user_turn_completed backend format_float repr_container self
                           new_message st
    = (Raises match bad with VDict _ => KeyError | _ => TypeError end,
       mkState (sent st
                ++ [recall_request (convex self) (user_id self)
                                   (text_or_empty new_message) 10])
               (turn_ctx st
                ++ match listed 5 "suburbPreferences" d with
                   | [] => []
                   | (_ :: _) as prefs =>
                       [suburb_message format_float repr_container prefs]
                   end
                ++ map (fact_message format_float repr_container) good)%list).
Proof.
  intros backend ff rc self new_message st d good bad rest
         (code & Hr & Hs) Hsub Hd Hlen Hgood Hbad.
  unfold on_user_turn_completed. rewrite bind_run, recall_context_run.
  rewrite Hr, Hs. cbn [fst snd body].
  rewrite bind_run, (inject_suburb_preferences_exact ff rc d _ Hsub).
  cbn [fst snd].
  rewrite bind_run, (inject_facts_stops ff rc d _ _ _ _ Hd Hlen Hgood Hbad).
  cbn [fst snd sent turn_ctx]. rewrite <- !app_assoc. reflexivity.
Qed.

Lemma turn_stops_at_malformed_fact_witness :
  on_user_turn_completed
    (fun _ _ =>
       PostReturns
         (mkResponse 200
            (Some (VDict [("facts",
                           VList [VDict [("fact", VStr "wants a garden");
                                         ("confidence", VInt 90)];
                                  VDict [("fact", VStr "has a dog")];
                                  VDict [("fact", VStr "works in the city");
                                         ("confidence", VInt 60)]]);
                          ("propertyInteractions",
                           VList [VDict [("propertyId", VStr "prop-001");
                                         ("interactionType",
                                          VStr "viewed")]])]))))
    Sample.format_float Sample.repr_container Sample.agent Sample.utterance
    Sample.start
  = (Raises KeyError,
     mkState [recall_request (convex Sample.agent) "u1"
                             "Anything near the beach?" 10]
             [mkChatMessage "assistant"
                (Some "Remembered: wants a garden (confidence: 90%)")]).
Proof.
  apply (turn_stops_at_malformed_fact
           (fun _ _ =>
              PostReturns
                (mkResponse 200
                   (Some (VDict [("facts",
                                  VList [VDict [("fact", VStr "wants a garden");
                                                ("confidence", VInt 90)];
                                         VDict [("fact", VStr "has a dog")];
                                         VDict [("fact",
                                                 VStr "works in the city");
                                                ("confidence", VInt 60)]]);
                                 ("propertyInteractions",
                                  VList [VDict [("propertyId", VStr "prop-001");
                                                ("interactionType",
                                                 VStr "viewed")]])]))))
           Sample.format_float Sample.repr_container Sample.agent
           Sample.utterance Sample.start
           [("facts",
             VList [VDict [("fact", VStr "wants a garden");
                           ("confidence", VInt 90)];
                    VDict [("fact", VStr "has a dog")];
                    VDict [("fact", VStr "works in the city");
                           ("confidence", VInt 60)]]);
            ("propertyInteractions",
             VList [VDict [("propertyId", VStr "prop-001");
                           ("interactionType", VStr "viewed")]])]
           [VDict [("fact", VStr "wants a garden"); ("confidence", VInt 90)]]
           (VDict [("fact", VStr "has a dog")])
           [VDict [("fact", VStr "works in the city");
                   ("confidence", VInt 60)]]).
  - exists 200. split; reflexivity.
  - reflexivity.
  - reflexivity.
  - simpl. lia.
  - reflexivity.
  - reflexivity.
Defined.

(** ** Further properties of the tools *)

Section ToolRuns.

Variable backend : list Request -> Request -> Reply.
Hypothesis live : forall h rq, cancelled (backend h rq) = false.

(** Unless the task is cancelled, [remember_conversation] returns, having
    posted its one request. *)
Lemma remember_conversation_live self uid uq ar pid pctx st :
  exists v,
    remember_conversation backend self uid uq ar pid pctx st
    = (Returns v,
       mkState (sent st ++ [remember_request self uid uq ar pid pctx])
               (turn_ctx st)).
Proof.
  rewrite remember_conversation_run.
  pose proof (live (sent st) (remember_request self uid uq ar pid pctx)) as Hc.
  destruct (backend (sent st) (remember_request self uid uq ar pid pctx))
    as [e | r].
  - simpl in Hc. apply negb_false_iff in Hc. rewrite Hc. now eexists.
  - destruct (is_success r); [| now eexists].
    destruct (body r) as [[| | | | | |] |]; now eexists.
Qed.

(** The loop of [search_properties]: one request per candidate, in order. *)
Lemma remember_each self uid uq ar (items : list value) st :
  forallb (has_keys ["id"]) items = true ->
  forM_ (fun prop =>
           pid <- subscript prop "id" ;;
           _ <- remember_conversation backend self uid uq ar pid prop ;;
           ret tt)
        items st
  = (Returns tt,
     mkState (sent st
              ++ map (fun prop =>
                        remember_request self uid uq ar (field "id" prop) prop)
                     items)
             (turn_ctx st)).
Proof.
  revert st. induction items as [| p items IH]; intros st H.
  - cbn [forM_ map]. unfold ret. rewrite app_nil_r. now destruct st.
  - cbn [forallb] in H. apply andb_prop in H as [Hp Hr].
    cbn [forM_ map]. rewrite bind_run, bind_run.
    rewrite (subscript_present _ _ _ Hp). cbn [fst snd].
    rewrite bind_run.
    destruct (remember_conversation_live self uid uq ar (field "id" p) p st)
      as (v & ->).
    cbn [fst snd ret]. rewrite (IH _ Hr). cbn [sent turn_ctx].
    now rewrite <- app_assoc.
Qed.

End ToolRuns.

(** X12. Unless the task is cancelled, [search_properties] posts exactly two
    requests to the memory service, one per candidate in the order
    [prop-001], [prop-002], each carrying the query
    [Search for properties in location], the serialized result list and the
    candidate itself; and it returns its summary whatever the service
    replies, failures included.  [budget_min] has no influence on any of
    this. *)
Theorem search_properties_remembers_each_candidate :
  forall backend json_dumps self location budget_min budget_max bedrooms
         property_type st,
    (forall h rq, cancelled (backend h rq) = false) ->
    exists first second,
      search_results location budget_max bedrooms property_type
      = [first; second]
      /\ search_properties backend json_dumps self location budget_min
                           budget_max bedrooms property_type st
         = (Returns ("Found 2 properties in " ++ location ++ ". "),
            mkState
              (sent st
               ++ [remember_request (convex self) (user_id self)
                     ("Search for properties in " ++ location)
                     (json_dumps (VDict [("results",
                                          VList [first; second])]))
                     (VStr "prop-001") first;
                   remember_request (convex self) (user_id self)
                     ("Search for properties in " ++ location)
                     (json_dumps (VDict [("results",
                                          VList [first; second])]))
                     (VStr "prop-002") second])
              (turn_ctx st)).
Proof.
  intros backend jd self location bmin bmax beds pt st Hlive.
  eexists _, _. split; [reflexivity |].
  unfold search_properties. rewrite bind_run.
  rewrite (remember_each backend Hlive); [reflexivity | reflexivity].
Qed.

Lemma search_properties_remembers_each_candidate_witness :
  exists first second,
    search_results "Bondi" (Some 2000000) (Some 4) None = [first; second]
    /\ search_properties Sample.backend_down Sample.json_dumps Sample.agent
                         "Bondi" None (Some 2000000) (Some 4) None
                         Sample.start
       = (Returns ("Found 2 properties in " ++ "Bondi" ++ ". "),
          mkState
            (sent Sample.start
             ++ [remember_request (convex Sample.agent) (user_id Sample.agent)
                   ("Search for properties in " ++ "Bondi")
                   (Sample.json_dumps
                      (VDict [("results", VList [first; second])]))
                   (VStr "prop-001") first;
                 remember_request (convex Sample.agent) (user_id Sample.agent)
                   ("Search for properties in " ++ "Bondi")
                   (Sample.json_dumps
                      (VDict [("results", VList [first; second])]))
                   (VStr "prop-002") second])
            (turn_ctx Sample.start)).
Proof.
  apply (search_properties_remembers_each_candidate
           Sample.backend_down Sample.json_dumps Sample.agent
           "Bondi" None (Some 2000000) (Some 4) None Sample.start).
  intros h rq. reflexivity.
Defined.

(** X13. Unless the task is cancelled, [get_property_details] never raises.
    For an identifier of the table it posts exactly one request, which
    records the view under that identifier with the query
    [Get details for id]; for any other it posts none.  The text it returns
    does not depend on what the memory service replies. *)
Theorem get_property_details_tracks_view :
  forall backend json_dumps format_float repr_container self property_id st,
    (forall h rq, cancelled (backend h rq) = false) ->
    exists details,
      get_property_details backend json_dumps format_float repr_container
                           self property_id st
      = (Returns details,
         mkState
           (sent st
            ++ (if truthy (field property_id properties)
                then [remember_request (convex self) (user_id self)
                        ("Get details for " ++ property_id)
                        (json_dumps (field property_id properties))
                        (VStr property_id)
                        (field property_id properties)]
                else []))
           (turn_ctx st))
      /\ forall backend' st',
          (forall h rq, cancelled (backend' h rq) = false) ->
          fst (get_property_details backend' json_dumps format_float
                                    repr_container self property_id st')
          = Returns details.
Proof.
  intros backend jd ff rc self pid st Hlive.
  destruct (String.eqb pid "prop-001") eqn:E1;
    [apply String.eqb_eq in E1; subst pid |
     destruct (String.eqb pid "prop-002") eqn:E2;
     [apply String.eqb_eq in E2; subst pid |]].
  - eexists. split.
    + unfold get_property_details. rewrite bind_run.
      change (get properties "prop-001" VNone st) with (ret prop_001 st).
      cbn [fst snd ret prop_001 truthy negb]. rewrite bind_run.
      match goal with
      | |- context [remember_conversation ?b ?c ?u ?q ?a ?p ?x ?s] =>
          destruct (remember_conversation_live b Hlive c u q a p x s)
            as (v & ->)
      end.
      reflexivity.
    + intros backend' st' Hlive'.
      unfold get_property_details. rewrite bind_run.
      change (get properties "prop-001" VNone st') with (ret prop_001 st').
      cbn [fst snd ret prop_001 truthy negb]. rewrite bind_run.
      match goal with
      | |- context [remember_conversation ?b ?c ?u ?q ?a ?p ?x ?s] =>
          destruct (remember_conversation_live b Hlive' c u q a p x s)
            as (v & ->)
      end.
      reflexivity.
  - eexists. split.
    + unfold get_property_details. rewrite bind_run.
      change (get properties "prop-002" VNone st) with (ret prop_002 st).
      cbn [fst snd ret prop_002 truthy negb]. rewrite bind_run.
      match goal with
      | |- context [remember_conversation ?b ?c ?u ?q ?a ?p ?x ?s] =>
          destruct (remember_conversation_live b Hlive c u q a p x s)
            as (v & ->)
      end.
      reflexivity.
    + intros backend' st' Hlive'.
      unfold get_property_details. rewrite bind_run.
      change (get properties "prop-002" VNone st') with (ret prop_002 st').
      cbn [fst snd ret prop_002 truthy negb]. rewrite bind_run.
      match goal with
      | |- context [remember_conversation ?b ?c ?u ?q ?a ?p ?x ?s] =>
          destruct (remember_conversation_live b Hlive' c u q a p x s)
            as (v & ->)
      end.
      reflexivity.
  - assert (Hnone : field pid properties = VNone).
    { unfold field, properties. cbn [dict_lookup]. now rewrite E1, E2. }
    assert (Hget : forall s, get properties pid VNone s = (Returns VNone, s)).
    { intros s. unfold get, properties. cbn [dict_lookup].
      now rewrite E1, E2. }
    eexists. split.
    + unfold get_property_details. rewrite bind_run, Hget, Hnone.
      cbn [fst snd truthy negb ret]. rewrite app_nil_r.
      destruct st; reflexivity.
    + intros backend' st' _.
      unfold get_property_details. rewrite bind_run, Hget. reflexivity.
Qed.

Lemma get_property_details_tracks_view_witness :
  exists details,
    get_property_details Sample.backend_down Sample.json_dumps
                         Sample.format_float Sample.repr_container
                         Sample.agent "prop-002" Sample.start
    = (Returns details,
       mkState
         (sent Sample.start
          ++ (if truthy (field "prop-002" properties)
              then [remember_request (convex Sample.agent)
                      (user_id Sample.agent)
                      ("Get details for " ++ "prop-002")
                      (Sample.json_dumps (field "prop-002" properties))
                      (VStr "prop-002")
                      (field "prop-002" properties)]
              else []))
         (turn_ctx Sample.start))
    /\ forall backend' st',
        (forall h rq, cancelled (backend' h rq) = false) ->
        fst (get_property_details backend' Sample.json_dumps
                                  Sample.format_float Sample.repr_container
                                  Sample.agent "prop-002" st')
        = Returns details.
Proof.
  apply (get_property_details_tracks_view
           Sample.backend_down Sample.json_dumps Sample.format_float
           Sample.repr_container Sample.agent "prop-002" Sample.start).
  intros h rq. reflexivity.
Defined.

(** ** Further properties of identity resolution *)

(** X17. When the job metadata is the text of a JSON object whose [userId]
    is a true value, that value is the resolved identity, whatever the room
    is called. *)
Theorem resolve_user_id_prefers_claimed_user :
  forall json_loads metadata d claimed room_name st,
    metadata <> EmptyString ->
    json_loads metadata = Returns (VDict d) ->
    dict_lookup "userId" d = Some claimed ->
    truthy claimed = true ->
    resolve_user_id json_loads metadata room_name st = (Returns claimed, st).
Proof.
  intros jl metadata d claimed room st Hne Hjson Hd Ht.
  unfold resolve_user_id.
  replace (truthy (VStr metadata)) with true
    by (destruct metadata; [contradiction | reflexivity]).
  unfold bind at 1. rewrite Hjson. unfold bind at 1. unfold get.
  rewrite Hd. unfold ret, py_or. now rewrite Ht, Ht.
Qed.

Lemma resolve_user_id_prefers_claimed_user_witness :
  resolve_user_id (fun _ => Returns (VDict [("userId", VStr "user-42")]))
                  "{...}" (Some "room42") Sample.start
  = (Returns (VStr "user-42"), Sample.start).
Proof.
  apply (resolve_user_id_prefers_claimed_user
           (fun _ => Returns (VDict [("userId", VStr "user-42")]))
           "{...}" [("userId", VStr "user-42")] (VStr "user-42")
           (Some "room42") Sample.start).
  - discriminate.
  - reflexivity.
  - reflexivity.
  - reflexivity.
Defined.

(** X18. When the job metadata is empty (it is then not decoded at all), or
    is the text of a JSON object without [userId], the resolved identity is
    the room name if that is a non-empty string, and ["anonymous"]
    otherwise. *)
Theorem resolve_user_id_without_claim :
  forall json_loads metadata room_name st,
    (metadata = EmptyString
     \/ exists d, json_loads metadata = Returns (VDict d)
                  /\ dict_lookup "userId" d = None) ->
    resolve_user_id json_loads metadata room_name st
    = (Returns (VStr match room_name with
                     | Some (String c rest) => String c rest
                     | Some EmptyString | None => "anonymous"
                     end), st).
Proof.
  intros jl metadata room st H.
  assert (Hrun : forall job_metadata,
             dict_lookup "userId" job_metadata = None ->
             (claimed <- get (VDict job_metadata) "userId" VNone ;;
              ret (py_or (py_or claimed (of_option_str room))
                         (VStr "anonymous"))) st
             = (Returns (VStr match room with
                              | Some (String c rest) => String c rest
                              | Some EmptyString | None => "anonymous"
                              end), st)).
  { intros job_metadata Hnone. unfold bind, get. rewrite Hnone.
    destruct room as [[| c rest] |]; reflexivity. }
  unfold resolve_user_id. unfold bind at 1.
  destruct metadata as [| c0 m0].
  - cbn [truthy ret]. now apply Hrun.
  - destruct H as [H | (d & Hjson & Hd)]; [discriminate H |].
    cbn [truthy]. rewrite Hjson. now apply Hrun.
Qed.

Lemma resolve_user_id_without_claim_witness :
  resolve_user_id (fun _ => Raises JSONDecodeError) EmptyString
                  (Some "room42") Sample.start
  = (Returns (VStr "room42"), Sample.start).
Proof.
  apply (resolve_user_id_without_claim
           (fun _ => Raises JSONDecodeError) EmptyString (Some "room42")
           Sample.start).
  left. reflexivity.
Defined.

(** X19. Non-empty job metadata that is not the text of a JSON object is not
    tolerated: identity resolution raises, with the error of the decoder
    when the text is not JSON and with [AttributeError] when it is JSON of
    another kind; there is no fallback to the room name. *)
Theorem resolve_user_id_rejects_malformed_metadata :
  forall json_loads metadata room_name st,
    metadata <> EmptyString ->
    (forall d, json_loads metadata <> Returns (VDict d)) ->
    resolve_user_id json_loads metadata room_name st
    = (Raises match json_loads metadata with
              | Raises e => e
              | Returns _ => AttributeError
              end, st).
Proof.
  intros jl metadata room st Hne Hobj.
  unfold resolve_user_id.
  replace (truthy (VStr metadata)) with true
    by (destruct metadata; [contradiction | reflexivity]).
  rewrite bind_run. cbn [fst snd].
  destruct (jl metadata) as [v | e]; [| reflexivity].
  destruct v; try reflexivity. now elim (Hobj entries).
Qed.

Lemma resolve_user_id_rejects_malformed_metadata_witness :
  resolve_user_id Sample.json_loads "not json" (Some "room42") Sample.start
  = (Raises JSONDecodeError, Sample.start).
Proof.
  apply (resolve_user_id_rejects_malformed_metadata
           Sample.json_loads "not json" (Some "room42") Sample.start).
  - discriminate.
  - intros d. discriminate.
Defined.

(** ** Further properties of configuration *)

Lemma rstrip_slash (s : string) :
  (exists tail,
      s = PyStr.rstrip s "/" ++ tail
      /\ Forall (fun c => c = "/"%char) (list_ascii_of_string tail))
  /\ forall t, PyStr.rstrip s "/" <> t ++ "/".
Proof.
  induction s as [| c s [(tail & Hs & Htail) Hend]].
  - split.
    + exists EmptyString. split; [reflexivity | constructor].
    + intros [| a t]; discriminate.
  - cbn [PyStr.rstrip].
    destruct (PyStr.rstrip s "/") as [| k kept] eqn:Hr.
    + cbn [PyStr.mem]. rewrite orb_false_r.
      destruct (Ascii.eqb_spec c "/") as [-> | Hc].
      * split.
        -- exists (String "/" s). split; [reflexivity |].
           cbn [append] in Hs. rewrite Hs. cbn [list_ascii_of_string].
           now constructor.
        -- intros [| a t]; discriminate.
      * split.
        -- exists tail. cbn [append] in Hs |- *.
           split; [now rewrite <- Hs | exact Htail].
        -- intros [| a t] H; cbn [append] in H.
           ++ inversion H. now elim Hc.
           ++ inversion H. destruct t; discriminate.
    + split.
      * exists tail. cbn [append] in Hs |- *.
        split; [now rewrite <- Hs | exact Htail].
      * intros [| a t] H; cbn [append] in H.
        -- inversion H.
        -- inversion H. now elim (Hend t).
Qed.

(** X21. The base URL of the memory client is the configured Convex URL
    without its trailing slashes: the configured URL is the base URL
    followed by slashes only, and the base URL does not end with a slash, so
    that the path appended to it starts with the only slash at that
    place. *)
Theorem base_url_has_no_trailing_slash :
  forall config,
    (exists tail,
        convex_url config = base_url (ConvexClient_init config) ++ tail
        /\ Forall (fun c => c = "/"%char) (list_ascii_of_string tail))
    /\ (forall t, base_url (ConvexClient_init config) <> t ++ "/")
    /\ forall user_id,
        url (ensure_request (ConvexClient_init config) user_id)
        = PyStr.rstrip (convex_url config) "/"
          ++ "/api/cortex/ensure-memory-space".
Proof.
  intros config. cbn [ConvexClient_init base_url].
  destruct (rstrip_slash (convex_url config)) as [H1 H2].
  split; [exact H1 |]. split; [exact H2 | reflexivity].
Qed.

(** ** The memory client: success and cancellation *)

(** X22. On a 2xx reply with a JSON body, [recall_context] returns the
    document as it is, without checking that it is an object or that it has
    the four fields of a recall result. *)
Theorem recall_context_returns_document :
  forall backend self uid q limit st v,
    replies_with v (backend (sent st) (recall_request self uid q limit)) ->
    recall_context backend self uid q limit st
    = (Returns v,
       mkState (sent st ++ [recall_request self uid q limit]) (turn_ctx st)).
Proof.
  intros backend self uid q limit st v (code & Hr & Hs).
  rewrite recall_context_run, Hr, Hs. reflexivity.
Qed.

Lemma recall_context_returns_document_witness :
  recall_context (fun _ _ => PostReturns (mkResponse 200 (Some (VInt 7))))
                 (convex Sample.agent) "u1" "beach" 10 Sample.start
  = (Returns (VInt 7),
     mkState (sent Sample.start
              ++ [recall_request (convex Sample.agent) "u1" "beach" 10])
             (turn_ctx Sample.start)).
Proof.
  apply (recall_context_returns_document
           (fun _ _ => PostReturns (mkResponse 200 (Some (VInt 7))))
           (convex Sample.agent) "u1" "beach" 10 Sample.start (VInt 7)).
  exists 200. split; reflexivity.
Defined.

(** X23. A cancellation of the task while a call of the memory service is
    awaited is not turned into a default: each of the four calls of the
    client raises it, and so does the completed turn, which then adds no
    message. *)
Theorem cancellation_is_passed_on :
  forall backend format_float repr_container agent new_message uid q limit
         uq ar pid pctx cat pref conf md st,
    (forall rq, backend (sent st) rq = PostRaises CancelledError) ->
    fst (ensure_memory_space backend (convex agent) uid st)
    = Raises CancelledError
    /\ fst (recall_context backend (convex agent) uid q limit st)
       = Raises CancelledError
    /\ fst (remember_conversation backend (convex agent) uid uq ar pid pctx st)
       = Raises CancelledError
    /\ fst (store_preference backend (convex agent) uid cat pref conf md st)
       = Raises CancelledError
    /\ on_user_turn_completed backend format_float repr_container agent
                              new_message st
       = (Raises CancelledError,
          mkState (sent st
                   ++ [recall_request (convex agent) (user_id agent)
                                      (text_or_empty new_message) 10])
                  (turn_ctx st)).
Proof.
  intros backend ff rc agent new_message uid q limit uq ar pid pctx cat pref
         conf md st H.
  rewrite ensure_memory_space_run, recall_context_run,
    remember_conversation_run, store_preference_run, !H.
  repeat (split; [reflexivity |]).
  unfold on_user_turn_completed. rewrite bind_run, recall_context_run, H.
  reflexivity.
Qed.

Lemma cancellation_is_passed_on_witness :
  fst (ensure_memory_space (fun _ _ => PostRaises CancelledError)
                           (convex Sample.agent) "u1" Sample.start)
  = Raises CancelledError
  /\ fst (recall_context (fun _ _ => PostRaises CancelledError)
                         (convex Sample.agent) "u1" "beach" 10 Sample.start)
     = Raises CancelledError
  /\ fst (remember_conversation (fun _ _ => PostRaises CancelledError)
                                (convex Sample.agent) "u1" "q" "a" VNone VNone
                                Sample.start)
     = Raises CancelledError
  /\ fst (store_preference (fun _ _ => PostRaises CancelledError)
                           (convex Sample.agent) "u1" "price" "low" 80 VNone
                           Sample.start)
     = Raises CancelledError
  /\ on_user_turn_completed (fun _ _ => PostRaises CancelledError)
                            Sample.format_float Sample.repr_container
                            Sample.agent Sample.utterance Sample.start
     = (Raises CancelledError,
        mkState (sent Sample.start
                 ++ [recall_request (convex Sample.agent)
                                    (user_id Sample.agent)
                                    (text_or_empty Sample.utterance) 10])
                (turn_ctx Sample.start)).
Proof.
  apply (cancellation_is_passed_on
           (fun _ _ => PostRaises CancelledError)
           Sample.format_float Sample.repr_container Sample.agent
           Sample.utterance "u1" "beach" 10 "q" "a" VNone VNone
           "price" "low" 80 VNone Sample.start).
  intros rq. reflexivity.
Defined.
